(** * Patient scheduler (app.py): capacity check, request handlers, ledger

    A shallow embedding of [app.py]: the in-memory list [appointments], the
    Excel helpers [load_excel] / [save_excel], [count_in_hour] and the three
    branches of [api_appointments], followed by the properties of the
    specification that concern them.

    Conventions of the model.
    - A Python [str] is a [string]; its characters are the code points
      below 256.  Comparison of strings is lexicographic by code point.
    - A value held in a cell of the sheet or in a field of a JSON body is
      [None] or text ([value]); these are the only kinds of value the
      program itself ever stores.
    - An appointment is a Python dict, here a [gmap string value].
    - An exception is a constructor of [exn]; code that may raise returns a
      [result].  A handler returns the state it leaves behind together with
      its response or the exception that escapes it.
    - Requests are handled one at a time. *)

From Stdlib Require Import Ascii String Sorting.Permutation.
From stdpp Require Import base option list strings gmap pretty sorting.

Set Warnings "-abstract-large-number".

(** ** Exceptions and results *)

Inductive exn : Set :=
  | AttributeError
  | KeyError
  | TypeError
  | ValueError
  | IllegalCharacterError
  | FileExistsError
  | BadZipFile
  | OSError.

Inductive result (A : Type) : Type :=
  | Ok (a : A)
  | Raise (e : exn).
Arguments Ok {A} a.
Arguments Raise {A} e.

Global Instance exn_eq_dec : EqDecision exn.
Proof. solve_decision. Defined.

Global Instance result_ret : MRet result := λ A a, Ok a.
Global Instance result_bind : MBind result := λ A B f m,
  match m with
  | Ok a => f a
  | Raise e => Raise e
  end.

(** [for x in l: ...] where the body may raise: the first exception ends
    the loop. *)
Fixpoint for_each {A B} (f : A → result B) (l : list A) : result (list B) :=
  match l with
  | [] => Ok []
  | x :: l' => y ← f x; ys ← for_each f l'; Ok (y :: ys)
  end.

(** ** Values, dicts *)

Inductive value : Set :=
  | VNone
  | VStr (s : string).

Global Instance value_eq_dec : EqDecision value.
Proof. solve_decision. Defined.

(** Python truthiness: [None] and the empty string are false. *)
Definition truthy (v : value) : bool :=
  match v with
  | VNone => false
  | VStr s => negb (String.eqb s "")
  end.

Abbreviation dict := (gmap string value).

(** [d[k]] *)
Definition getitem (d : dict) (k : string) : result value :=
  match d !! k with
  | Some v => Ok v
  | None => Raise KeyError
  end.

(** ** str.strip() *)

(** [str.isspace] on one character, for the code points below 256:
    TAB, LF, VT, FF, CR, the separators FS GS RS US, the space, NEL and the
    no-break space. *)
Definition isspace (c : ascii) : bool :=
  let n := N_of_ascii c in
  ((9 <=? n) && (n <=? 13) || (28 <=? n) && (n <=? 32)
   || (n =? 133) || (n =? 160))%N.

Fixpoint lstrip_chars (l : list ascii) : list ascii :=
  match l with
  | [] => []
  | c :: l' => if isspace c then lstrip_chars l' else l
  end.

Definition strip_chars (l : list ascii) : list ascii :=
  reverse (lstrip_chars (reverse (lstrip_chars l))).

Definition strip (s : string) : string :=
  string_of_list_ascii (strip_chars (list_ascii_of_string s)).

(** ** datetime *)

Record datetime : Set := mk_datetime {
  year : N; month : N; day : N;
  hour : N; minute : N; second : N; microsecond : N;
  utcoffset : option Z       (* microseconds east of UTC, when aware *)
}.

(** The key compared in [count_in_hour]. *)
Definition bucket : Set := (N * N * N * N)%type.

Definition bucket_of (d : datetime) : bucket :=
  (year d, month d, day d, hour d).

Global Instance datetime_eq_dec : EqDecision datetime.
Proof. solve_decision. Defined.

(** ** Configuration *)

Definition EXCEL_FILE : string := "appointments.xlsx".
Definition MAX_PER_HOUR : nat := 4.
Definition DATETIME_FORMAT : string := "%Y-%m-%dT%H:%M".
Definition HEADERS : list string :=
  ["id"; "name"; "address"; "reason"; "datetime"; "created_at"].

(** ** The file system and the workbook files *)

(** A path is a directory and a file name.  A file is a workbook, given by
    the rows of cell values that [load_workbook] reads back from its active
    sheet, or the empty file that [mkstemp] creates. *)
Definition path : Set := (string * string)%type.

Inductive file : Set :=
  | Blank
  | Workbook (rows : list (list value)).

Abbreviation filesystem := (gmap path file).

(** The system call of [save_excel] that fails (permission denied, disk
    full, cross-device link), when one does. *)
Inductive fault : Set :=
  | FailMkstemp
  | FailSave
  | FailReplace.

Global Instance fault_eq_dec : EqDecision fault.
Proof. solve_decision. Defined.

(** What the surroundings supply to one request. *)
Record env : Set := mk_env {
  temp_name : string;       (* the random part of the name mkstemp draws *)
  uuid4 : string;           (* str(uuid.uuid4()) *)
  utcnow : string;          (* datetime.utcnow().isoformat() *)
  io_fault : option fault
}.

(** *** openpyxl: writing and reading cells *)

(** Characters refused in a cell: [\000-\010], [\013-\014], [\016-\037]. *)
Definition illegal_char (c : ascii) : bool :=
  let n := N_of_ascii c in
  ((n <=? 8) || (11 <=? n) && (n <=? 12) || (14 <=? n) && (n <=? 31))%N.

(** [Cell.check_string]: a string is cut at 32767 characters, then refused
    when it holds an illegal character. *)
Definition check_string (s : string) : result string :=
  let s' := String.substring 0 32767 s in
  if existsb illegal_char (list_ascii_of_string s')
  then Raise IllegalCharacterError
  else Ok s'.

Definition bind_value (v : value) : result value :=
  match v with
  | VNone => Ok VNone
  | VStr s => s' ← check_string s; Ok (VStr s')
  end.

(** [ws.append(row)] *)
Definition ws_append (row : list value) : result (list value) :=
  for_each bind_value row.

(** A cell whose value is [None] or the empty string is written as an empty
    cell, and an empty cell is read back as [None]. *)
Definition written (v : value) : value :=
  match v with
  | VStr "" => VNone
  | _ => v
  end.

(** ** sorted(appointments, key=...) *)

(** [x < y] on the keys: strings compare, anything else is a [TypeError]. *)
Definition value_lt (x y : value) : result bool :=
  match x, y with
  | VStr a, VStr b => Ok (negb (String.leb b a))
  | _, _ => Raise TypeError
  end.

(** A stable sort on decorated elements: [x] goes before the first [y]
    that is not smaller than it. *)
Fixpoint sort_insert {A} (x : value * A) (l : list (value * A))
  : result (list (value * A)) :=
  match l with
  | [] => Ok [x]
  | y :: l' =>
      b ← value_lt (fst y) (fst x);
      if b : bool then l'' ← sort_insert x l'; Ok (y :: l'') else Ok (x :: l)
  end.

Fixpoint sort_keyed {A} (l : list (value * A)) : result (list (value * A)) :=
  match l with
  | [] => Ok []
  | x :: l' => s ← sort_keyed l'; sort_insert x s
  end.

(** [sorted(l, key=lambda a: a["datetime"])]: the keys are computed first. *)
Definition keyed_by_datetime (a : dict) : result (value * dict) :=
  k ← getitem a "datetime"; Ok (k, a).

Definition sorted_by_datetime (l : list dict) : result (list dict) :=
  keyed ← for_each keyed_by_datetime l;
  s ← sort_keyed keyed;
  Ok (map snd s).

(** ** Responses *)

Inductive response : Type :=
  | RList (appts : list dict)                 (* 200, ok, "appointments" *)
  | RError (status : nat) (error : string)    (* not ok, "error" *)
  | RCreated (appt : dict)                    (* 201, ok, "appointment" *)
  | RDone                                     (* 200, ok *)
  | RFile (name : string) (content : file).   (* the attachment *)

Inductive request : Type :=
  | GET
  | POST (data : dict)
  | DELETE (data : dict)
  | DOWNLOAD.

Record world : Type := mk_world {
  appointments : list dict;
  disk : filesystem
}.

(** ** The program *)

(** The interpreter and the process: the working directory, in which the
    relative [EXCEL_FILE] resolves for [os.path.exists], [load_workbook]
    and [os.replace]; [app.root_path], the directory of [app.py], in which
    Flask's [send_file] resolves it; [tempfile.gettempdir()]; and
    [datetime.fromisoformat] on a string, giving the datetime it builds or
    [None] where it raises [ValueError].  Which strings the parser accepts
    depends on the interpreter; the program is embedded over any such
    parser, and [Iso.fromisoformat] below is the grammar of Python 3.7 to
    3.10. *)
Class Host : Type := {
  cwd : string;
  root_path : string;
  tempdir : string;
  fromisoformat : string → option datetime
}.

Section app.

Context `{Host}.

Definition datetime_fromisoformat (v : value) : result datetime :=
  match v with
  | VNone => Raise TypeError
  | VStr s =>
      match fromisoformat s with
      | Some d => Ok d
      | None => Raise ValueError
      end
  end.

Definition excel_path : path := (cwd, EXCEL_FILE).

(** The file that [send_file(EXCEL_FILE, ...)] opens. *)
Definition sent_path : path := (root_path, EXCEL_FILE).

(** *** load_excel *)

(** [dict(zip(HEADERS, row))] for the rows that are kept. *)
Definition load_row (row : list value) : option dict :=
  match row with
  | [] => None                                        (* not row *)
  | v :: _ =>
      if truthy v then Some (list_to_map (zip HEADERS row))
      else None                                       (* not row[0] *)
  end.

Definition load_excel (fs : filesystem) : result (list dict) :=
  match fs !! excel_path with
  | None => Ok []
  | Some Blank => Raise BadZipFile
  | Some (Workbook rows) => Ok (omap load_row (drop 1 rows))
  end.

(** *** save_excel *)

(** The rows appended to the fresh workbook: [HEADERS], then
    [[a[h] for h in HEADERS]] for every appointment. *)
Definition sheet_rows (appts : list dict) : result (list (list value)) :=
  header ← ws_append (VStr <$> HEADERS);
  rows ← for_each (λ a, vs ← for_each (getitem a) HEADERS; ws_append vs) appts;
  Ok (header :: rows).

Definition temp_path (e : env) : path :=
  (tempdir, "appts-" +:+ temp_name e +:+ ".xlsx").

(** [tempfile.mkstemp(prefix="appts-", suffix=".xlsx")] then [os.close]:
    a new empty file in the default temporary directory. *)
Definition mkstemp (e : env) (fs : filesystem) : filesystem * result path :=
  if decide (io_fault e = Some FailMkstemp) then (fs, Raise OSError)
  else match fs !! temp_path e with
       | Some _ => (fs, Raise FileExistsError)
       | None => (<[temp_path e := Blank]> fs, Ok (temp_path e))
       end.

(** [wb.save(tmp_path)] *)
Definition wb_save (e : env) (rows : list (list value)) (p : path)
    (fs : filesystem) : filesystem * result unit :=
  if decide (io_fault e = Some FailSave) then (fs, Raise OSError)
  else (<[p := Workbook (map (map written) rows)]> fs, Ok ()).

(** [os.replace(src, dst)] *)
Definition os_replace (e : env) (src dst : path) (fs : filesystem)
    : filesystem * result unit :=
  if decide (io_fault e = Some FailReplace) then (fs, Raise OSError)
  else match fs !! src with
       | None => (fs, Raise OSError)
       | Some f => (<[dst := f]> (delete src fs), Ok ())
       end.

Definition save_excel (e : env) (appts : list dict) (fs : filesystem)
    : filesystem * result unit :=
  match sheet_rows appts with
  | Raise x => (fs, Raise x)
  | Ok rows =>
      match mkstemp e fs with
      | (fs1, Raise x) => (fs1, Raise x)
      | (fs1, Ok tmp_path) =>
          match wb_save e rows tmp_path fs1 with
          | (fs2, Raise x) => (fs2, Raise x)
          | (fs2, Ok _) => os_replace e tmp_path excel_path fs2
          end
      end
  end.

(** *** count_in_hour *)

Definition same_hour (dt : datetime) (a : dict) : result bool :=
  v ← getitem a "datetime";
  adt ← datetime_fromisoformat v;
  Ok (bool_decide (bucket_of adt = bucket_of dt)).

Definition count_in_hour (dt_iso : value) (appts : list dict) : result nat :=
  match datetime_fromisoformat dt_iso with
  | Raise _ => Ok 0                                   (* except: return 0 *)
  | Ok dt =>
      Ok (foldl (λ count a,
                   match same_hour dt a with
                   | Ok true => S count
                   | Ok false => count
                   | Raise _ => count                 (* except: continue *)
                   end) 0 appts)
  end.

(** *** api_appointments *)

Definition api_GET (w : world) : world * result response :=
  (w, s ← sorted_by_datetime (appointments w); Ok (RList s)).

(** [data.get(k, "").strip()] *)
Definition get_strip (data : dict) (k : string) : result string :=
  match default (VStr "") (data !! k) with
  | VStr s => Ok (strip s)
  | VNone => Raise AttributeError
  end.

Definition post_fields (data : dict)
    : result (string * string * string * string) :=
  name ← get_strip data "name";
  address ← get_strip data "address";
  reason ← get_strip data "reason";
  dt ← get_strip data "datetime";
  Ok (name, address, reason, dt).

Definition new_appt (e : env) (name address reason dt : string) : dict :=
  <["id" := VStr (uuid4 e)]>
  (<["name" := VStr name]>
  (<["address" := VStr address]>
  (<["reason" := VStr reason]>
  (<["datetime" := VStr dt]>
  (<["created_at" := VStr (utcnow e)]> ∅))))).

Definition hour_full_message : string :=
  "Hour full (max " +:+ pretty MAX_PER_HOUR +:+ ").".

Definition api_POST (e : env) (data : dict) (w : world)
    : world * result response :=
  match post_fields data with
  | Raise x => (w, Raise x)
  | Ok (name, address, reason, dt) =>
      if bool_decide (name = "") || bool_decide (dt = "") then
        (w, Ok (RError 400 "Name and datetime are required."))
      else
        match datetime_fromisoformat (VStr dt) with
        | Raise _ => (w, Ok (RError 400 "Invalid datetime format."))
        | Ok _ =>
            match count_in_hour (VStr dt) (appointments w) with
            | Raise x => (w, Raise x)
            | Ok n =>
                if (MAX_PER_HOUR <=? n)%nat then
                  (w, Ok (RError 409 hour_full_message))
                else
                  let a := new_appt e name address reason dt in
                  let appts := appointments w ++ [a] in
                  let '(fs, r) := save_excel e appts (disk w) in
                  (mk_world appts fs, _ ← r; Ok (RCreated a))
            end
        end
  end.

(** [[a for a in appointments if a["id"] != appt_id]] *)
Fixpoint without_id (appt_id : value) (appts : list dict)
    : result (list dict) :=
  match appts with
  | [] => Ok []
  | a :: rest =>
      v ← getitem a "id";
      kept ← without_id appt_id rest;
      Ok (if decide (v = appt_id) then kept else a :: kept)
  end.

Definition api_DELETE (e : env) (data : dict) (w : world)
    : world * result response :=
  let appt_id := default VNone (data !! "id") in
  let before := length (appointments w) in
  match without_id appt_id (appointments w) with
  | Raise x => (w, Raise x)
  | Ok kept =>
      if (length kept =? before)%nat then
        (mk_world kept (disk w), Ok (RError 404 "Appointment not found"))
      else
        let '(fs, r) := save_excel e kept (disk w) in
        (mk_world kept fs, _ ← r; Ok RDone)
  end.

Definition download_excel (e : env) (w : world) : world * result response :=
  let '(fs, r) := save_excel e (appointments w) (disk w) in
  (mk_world (appointments w) fs,
   _ ← r;
   match fs !! sent_path with
   | Some f => Ok (RFile EXCEL_FILE f)
   | None => Raise OSError                       (* FileNotFoundError *)
   end).

Definition handle (e : env) (r : request) (w : world)
    : world * result response :=
  match r with
  | GET => api_GET w
  | POST data => api_POST e data w
  | DELETE data => api_DELETE e data w
  | DOWNLOAD => download_excel e w
  end.

(** The state after a sequence of requests. *)
Definition run (rs : list (env * request)) (w : world) : world :=
  foldl (λ w er, fst (handle (fst er) (snd er) w)) w rs.

(** Startup: [load_excel()] at import. *)
Definition startup (fs : filesystem) : result world :=
  appts ← load_excel fs; Ok (mk_world appts fs).

End app.

(** ** datetime.fromisoformat, Python 3.7 to 3.10 *)

(** The documented grammar
    [YYYY-MM-DD[*HH[:MM[:SS[.fff[fff]]]][+HH:MM[:SS[.ffffff]]]]], where [*]
    is any single character, followed by the range checks of the [datetime]
    constructor. *)
Module Iso.

Definition digit (c : ascii) : option N :=
  let n := N_of_ascii c in
  if ((48 <=? n) && (n <=? 57))%N then Some (n - 48)%N else None.

(** Exactly [n] decimal digits. *)
Fixpoint digits (n : nat) (acc : N) (l : list ascii)
    : option (N * list ascii) :=
  match n with
  | O => Some (acc, l)
  | S n' =>
      match l with
      | [] => None
      | c :: l' => d ← digit c; digits n' (10 * acc + d)%N l'
      end
  end.

Definition expect (c : ascii) (l : list ascii) : option (list ascii) :=
  match l with
  | c' :: l' => if decide (c' = c) then Some l' else None
  | [] => None
  end.

Definition is_leap (y : N) : bool :=
  ((y mod 4 =? 0) && (negb (y mod 100 =? 0) || (y mod 400 =? 0)))%N.

Definition days_in_month (y m : N) : N :=
  match m with
  | 2 => if is_leap y then 29 else 28
  | 4 | 6 | 9 | 11 => 30
  | _ => 31
  end%N.

(** The checks of [datetime(year, month, day, hour, minute, second, us)]. *)
Definition make_datetime (y m d h mi s us : N) (tz : option Z)
    : option datetime :=
  if ((1 <=? y) && (y <=? 9999) && (1 <=? m) && (m <=? 12)
      && (1 <=? d) && (d <=? days_in_month y m)
      && (h <=? 23) && (mi <=? 59) && (s <=? 59) && (us <=? 999999))%N
  then Some (mk_datetime y m d h mi s us tz)
  else None.

Definition parse_date (l : list ascii) : option (N * N * N * list ascii) :=
  '(y, l) ← digits 4 0 l;
  l ← expect "-" l;
  '(m, l) ← digits 2 0 l;
  l ← expect "-" l;
  '(d, l) ← digits 2 0 l;
  Some (y, m, d, l).

(** [.fff] or [.ffffff], in microseconds *)
Definition parse_fraction (l : list ascii) : option N :=
  match length l with
  | 3 => '(f, _) ← digits 3 0 l; Some (f * 1000)%N
  | 6 => '(f, _) ← digits 6 0 l; Some f
  | _ => None
  end.

(** [HH[:MM[:SS[.fff[fff]]]]] *)
Definition parse_hh_mm_ss_ff (l : list ascii) : option (N * N * N * N) :=
  '(h, l) ← digits 2 0 l;
  match l with
  | [] => Some (h, 0, 0, 0)%N
  | c :: l =>
      if decide (c = ":"%char) then
        '(mi, l) ← digits 2 0 l;
        match l with
        | [] => Some (h, mi, 0, 0)%N
        | c :: l =>
            if decide (c = ":"%char) then
              '(s, l) ← digits 2 0 l;
              match l with
              | [] => Some (h, mi, s, 0%N)
              | c :: l =>
                  if decide (c = "."%char) then
                    us ← parse_fraction l; Some (h, mi, s, us)
                  else None
              end
            else None
        end
      else None
  end.

(** The time text up to the first [+] or [-], and the sign and text of the
    offset after it. *)
Fixpoint split_offset (l : list ascii)
    : list ascii * option (bool * list ascii) :=
  match l with
  | [] => ([], None)
  | c :: l' =>
      if decide (c = "+"%char) then ([], Some (false, l'))
      else if decide (c = "-"%char) then ([], Some (true, l'))
      else let '(t, z) := split_offset l' in (c :: t, z)
  end.

(** [HH:MM], [HH:MM:SS] or [HH:MM:SS.ffffff], strictly within a day; the
    offset in microseconds. *)
Definition parse_offset (negative : bool) (l : list ascii) : option Z :=
  if bool_decide (length l ∈ [5; 8; 15]) then
    '(h, mi, s, us) ← parse_hh_mm_ss_ff l;
    let total := (((h * 60 + mi) * 60 + s) * 1000000 + us)%N in
    if (total <? 86400000000)%N
    then Some (if negative then - Z.of_N total else Z.of_N total)%Z
    else None
  else None.

Definition parse_time (l : list ascii) : option (N * N * N * N * option Z) :=
  let '(t, z) := split_offset l in
  '(h, mi, s, us) ← parse_hh_mm_ss_ff t;
  match z with
  | None => Some (h, mi, s, us, None)
  | Some (negative, zl) =>
      off ← parse_offset negative zl; Some (h, mi, s, us, Some off)
  end.

Definition fromisoformat (s : string) : option datetime :=
  '(y, m, d, rest) ← parse_date (list_ascii_of_string s);
  match rest with
  | [] => make_datetime y m d 0 0 0 0 None
  | _ :: t =>
      '(h, mi, sec, us, tz) ← parse_time t;
      make_datetime y m d h mi sec us tz
  end.

End Iso.

(** ** Parsing under DATETIME_FORMAT *)

(** What the specification calls the fixed format:
    [datetime.strptime(s, DATETIME_FORMAT)] for ["%Y-%m-%dT%H:%M"].  [%Y] is
    four digits; [%m], [%d], [%H] and [%M] are one or two digits within
    their range ([%d] also a space and a digit); the letter matches in
    either case; nothing may follow the minutes. *)
Module Strptime.

(** One or two digits, as many as there are. *)
Definition field (l : list ascii) : option (N * list ascii) :=
  match l with
  | c1 :: l1 =>
      d1 ← Iso.digit c1;
      match l1 with
      | c2 :: l2 =>
          match Iso.digit c2 with
          | Some d2 => Some (10 * d1 + d2, l2)%N
          | None => Some (d1, l1)
          end
      | [] => Some (d1, l1)
      end
  | [] => None
  end.

Definition field_in (lo hi : N) (l : list ascii) : option (N * list ascii) :=
  '(n, l') ← field l;
  if ((lo <=? n) && (n <=? hi))%N then Some (n, l') else None.

Definition day_field (l : list ascii) : option (N * list ascii) :=
  match l with
  | c :: l' =>
      if decide (c = " "%char) then
        match l' with
        | c1 :: l1 =>
            d ← Iso.digit c1;
            if (1 <=? d)%N then Some (d, l1) else None
        | [] => None
        end
      else field_in 1 31 l
  | [] => None
  end.

Definition letter_T (l : list ascii) : option (list ascii) :=
  match l with
  | c :: l' =>
      if decide (c = "T"%char) then Some l'
      else if decide (c = "t"%char) then Some l'
      else None
  | [] => None
  end.

Definition strptime (s : string) : option datetime :=
  '(y, l) ← Iso.digits 4 0 (list_ascii_of_string s);
  l ← Iso.expect "-" l;
  '(m, l) ← field_in 1 12 l;
  l ← Iso.expect "-" l;
  '(d, l) ← day_field l;
  l ← letter_T l;
  '(h, l) ← field_in 0 23 l;
  l ← Iso.expect ":" l;
  '(mi, l) ← field_in 0 59 l;
  match l with
  | [] => Iso.make_datetime y m d h mi 0 0 None
  | _ :: _ => None
  end.

End Strptime.

(** ** The notions of the specification *)

Section notions.

Context `{Host}.

(** The (year, month, day, hour) bucket of a record, when its
    ["datetime"] is text that parses. *)
Definition bucket_of_appt (a : dict) : option bucket :=
  match a !! "datetime" with
  | Some (VStr s) => bucket_of <$> fromisoformat s
  | _ => None
  end.

(** The number of records of the collection in a bucket. *)
Definition bucket_count (b : bucket) (appts : list dict) : nat :=
  length (filter (λ a, bucket_of_appt a = Some b) appts).

(** The capacity invariant. *)
Definition capacity_ok (appts : list dict) : Prop :=
  ∀ b, bucket_count b appts ≤ MAX_PER_HOUR.

End notions.

(** The text under a key, empty when the key is absent or holds [None]. *)
Definition field_text (d : dict) (k : string) : string :=
  match d !! k with
  | Some (VStr s) => s
  | _ => ""
  end.

Definition has_text (k : string) (a : dict) : Prop :=
  ∃ s, a !! k = Some (VStr s).

(** The records that carry the id [v]. *)
Definition with_id (v : value) (appts : list dict) : list dict :=
  filter (λ a, a !! "id" = Some v) appts.

(** [s] lists [l] in ascending order of [key], records with equal keys in
    the order they have in [l]. *)
Definition stable_sorted_by {A} (key : A → string) (l s : list A) : Prop :=
  s ≡ₚ l
  ∧ StronglySorted (λ a b, String.le (key a) (key b)) s
  ∧ ∀ k, filter (λ a, key a = k) s = filter (λ a, key a = k) l.

Definition all_space (l : list ascii) : Prop :=
  Forall (λ c, isspace c = true) l.

(** [s] is [raw] without its leading and trailing whitespace. *)
Definition stripped_of (raw s : string) : Prop :=
  ∃ pre post,
    list_ascii_of_string raw = pre ++ list_ascii_of_string s ++ post
    ∧ all_space pre ∧ all_space post
    ∧ (∀ c, head (list_ascii_of_string s) = Some c → isspace c = false)
    ∧ (∀ c, last (list_ascii_of_string s) = Some c → isspace c = false).

(** A text that a cell takes as it is. *)
Definition cell_text (s : string) : Prop :=
  String.length s ≤ 32767
  ∧ existsb illegal_char (list_ascii_of_string s) = false.

(** A record that a ledger can hold and give back: exactly the six fields,
    a non-empty text id, every text one that a cell takes as it is. *)
Definition storable (a : dict) : Prop :=
  (∀ k, is_Some (a !! k) ↔ k ∈ HEADERS)
  ∧ (∃ s, a !! "id" = Some (VStr s) ∧ s ≠ "")
  ∧ (∀ k s, a !! k = Some (VStr s) → cell_text s).

(** The row of a record: [[a[h] for h in HEADERS]]. *)
Definition row_of (a : dict) : list value :=
  map (λ h, default VNone (a !! h)) HEADERS.

(** The body of a POST whose four fields, where present, are text. *)
Definition text_body (data : dict) : Prop :=
  ∀ k, k ∈ ["name"; "address"; "reason"; "datetime"] → data !! k ≠ Some VNone.

(** Two collections hold the same records, order and repetition aside. *)
Definition same_set (l1 l2 : list dict) : Prop := ∀ a, a ∈ l1 ↔ a ∈ l2.

(** ** A host and sample requests *)

(** An interpreter of Python 3.7 to 3.10 started in [/srv/scheduler], the
    directory of [app.py], with the temporary directory [/tmp]. *)
Definition py : Host := {|
  cwd := "/srv/scheduler";
  root_path := "/srv/scheduler";
  tempdir := "/tmp";
  fromisoformat := Iso.fromisoformat
|}.

(** The surroundings of the [n]-th request of a sample run. *)
Definition sample_env (n : nat) (f : option fault) : env := {|
  temp_name := "k3x9" +:+ pretty n;
  uuid4 := "6f1c2a9e-7b1d-4c55-9a3e-00000000000" +:+ pretty n;
  utcnow := "2023-12-30T17:0" +:+ pretty n +:+ ":07.250000";
  io_fault := f
|}.

(** The body [{"name": name, "datetime": dt}]. *)
Definition body (name dt : string) : dict :=
  <["name" := VStr name]> (<["datetime" := VStr dt]> ∅).

(** The four appointments of 09:00 of the specification's scenario. *)
Definition four_posts : list (env * request) :=
  [ (sample_env 1 None, POST (body "Ann" "2024-01-01T09:15"));
    (sample_env 2 None, POST (body "Bob" "2024-01-01T09:30"));
    (sample_env 3 None, POST (body "Cyd" "2024-01-01T09:45"));
    (sample_env 4 None, POST (body "Dee" "2024-01-01T09:50")) ].

(** A ledger row. *)
Definition ledger_row (id name dt : string) : list value :=
  [VStr id; VStr name; VNone; VNone; VStr dt; VStr "2023-12-30T17:00:00"].

(** A ledger that holds five appointments in one hour. *)
Definition crowded_ledger : filesystem :=
  {[ ("/srv/scheduler", EXCEL_FILE) :=
       Workbook [ VStr <$> HEADERS;
                  ledger_row "a1" "Ann" "2024-01-01T09:00";
                  ledger_row "a2" "Bob" "2024-01-01T09:10";
                  ledger_row "a3" "Cyd" "2024-01-01T09:20";
                  ledger_row "a4" "Dee" "2024-01-01T09:30";
                  ledger_row "a5" "Eve" "2024-01-01T09:40" ] ]}.

(** A ledger written by an earlier run. *)
Definition old_ledger : filesystem :=
  {[ ("/srv/scheduler", EXCEL_FILE) :=
       Workbook [ VStr <$> HEADERS;
                  ledger_row "a1" "Ann" "2024-01-01T09:00" ] ]}.

(** The collection is empty and there is no file. *)
Definition empty_world : world := mk_world [] ∅.

(** The state after the four appointments of 09:00. *)
Definition full_hour : world := run (H:=py) four_posts empty_world.

(** The body [{"id": id}]. *)
Definition id_body (id : string) : dict := {[ "id" := VStr id ]}.

(** ** Further notions: saved answers, ids, the ledger in step *)

(** The answers that [api_appointments] and [download_excel] give after a
    [save_excel] that has returned. *)
Definition saved_response (r : response) : bool :=
  match r with
  | RCreated _ | RDone | RFile _ _ => true
  | RList _ | RError _ _ => false
  end.

(** The ids of a collection, in its order ([None] for a record without
    the key). *)
Definition ids (appts : list dict) : list (option value) :=
  (λ a : dict, a !! "id") <$> appts.

Section ledger.

Context `{Host}.

(** The ledger file holds the sheet of the collection. *)
Definition ledger_in_sync (w : world) : Prop :=
  ∃ rows, sheet_rows (appointments w) = Ok rows
    ∧ disk w !! excel_path = Some (Workbook (map (map written) rows)).

End ledger.

(** ** The page's script: escapeHtml *)

(** [s.replaceAll(c, r)] for a pattern [c] of one character and a
    replacement [r] without [$]. *)
Fixpoint replaceAll (c : ascii) (r : string) (s : string) : string :=
  match s with
  | EmptyString => EmptyString
  | String c' s' =>
      if decide (c' = c) then r +:+ replaceAll c r s'
      else String c' (replaceAll c r s')
  end.

(** [escapeHtml(s)]: [if (!s) return ""], then the three replacements, the
    ampersand first. *)
Definition escapeHtml (s : value) : string :=
  match s with
  | VNone => ""
  | VStr s =>
      if decide (s = "") then ""
      else replaceAll ">" "&gt;" (replaceAll "<" "&lt;" (replaceAll "&" "&amp;" s))
  end.

(** The entity of one character. *)
Definition entity (c : ascii) : string :=
  if decide (c = "&"%char) then "&amp;"
  else if decide (c = "<"%char) then "&lt;"
  else if decide (c = ">"%char) then "&gt;"
  else String c "".

(** Every character of [s] replaced by its entity, in one pass. *)
Fixpoint entities (s : string) : string :=
  match s with
  | EmptyString => EmptyString
  | String c s' => entity c +:+ entities s'
  end.

(** ** More sample data *)

(** Two ledger rows, the second with an empty datetime cell. *)
Definition blank_datetime_rows : list (list value) :=
  [ ledger_row "a1" "Ann" "2024-01-01T09:00";
    [VStr "a2"; VStr "Bob"; VNone; VNone; VNone; VStr "2023-12-30T17:00:00"] ].

(** The ledger that holds them. *)
Definition blank_datetime_ledger : filesystem :=
  {[ ("/srv/scheduler", EXCEL_FILE) :=
       Workbook ((VStr <$> HEADERS) :: blank_datetime_rows) ]}.

(** The world after a start on [blank_datetime_ledger]. *)
Definition blank_datetime_world : world :=
  mk_world ((λ row, list_to_map (zip HEADERS row)) <$> blank_datetime_rows)
    blank_datetime_ledger.

(** A ledger in which two rows carry the id [a1]. *)
Definition duplicate_id_ledger : filesystem :=
  {[ ("/srv/scheduler", EXCEL_FILE) :=
       Workbook [ VStr <$> HEADERS;
                  ledger_row "a1" "Ann" "2024-01-01T09:00";
                  ledger_row "a1" "Bob" "2024-01-01T09:10";
                  ledger_row "a2" "Cyd" "2024-01-01T09:20" ] ]}.

(** The same interpreter started in [/home/nurse], with [app.py] in
    [/srv/scheduler]. *)
Definition py_elsewhere : Host := {|
  cwd := "/home/nurse";
  root_path := "/srv/scheduler";
  tempdir := "/tmp";
  fromisoformat := Iso.fromisoformat
|}.

(** A name that holds the control character BEL. *)
Definition bell_name : string := String "A" (String "007" "nn").

(** The state after a POST of [bell_name] on the empty world. *)
Definition bell_world : world :=
  fst (handle (H:=py) (sample_env 1 None)
         (POST (body bell_name "2024-01-01T09:15")) empty_world).

(** * Properties *)

(** ** The stable sort *)

Section sorting.

Context {A : Type} (key : A → string).

Local Abbreviation keyed := (λ p : value * A, fst p = VStr (key (snd p))).
Local Abbreviation le_key := (λ p q : value * A, String.le (key (snd p)) (key (snd q))).
Local Abbreviation has_key k := (λ p : value * A, key (snd p) = k).

Lemma sort_insert_ok (x : value * A) (l : list (value * A)) :
  keyed x → Forall keyed l →
  ∃ l', sort_insert x l = Ok l'
    ∧ Forall keyed l'
    ∧ l' ≡ₚ x :: l
    ∧ (StronglySorted le_key l → StronglySorted le_key l')
    ∧ ∀ k, filter (has_key k) l' = filter (has_key k) (x :: l).
Proof.
  intros Hx. induction l as [|y l IH]; intros Hl.
  - exists [x]. repeat split; auto using SSorted_nil, SSorted_cons.
  - apply Forall_cons in Hl as [Hy Hl].
    destruct (IH Hl) as (l' & Hins & Hk & Hp & Hs & Hf).
    cbn [sort_insert]. rewrite Hy, Hx. cbn [value_lt mbind result_bind].
    destruct (String.leb (key (snd x)) (key (snd y))) eqn:Hle; cbn [negb].
    + (* x is not above y: x goes first *)
      exists (x :: y :: l). repeat split; auto.
      intros Hs'. apply SSorted_cons; [done|].
      apply Forall_cons. split; [by apply Is_true_true|].
      apply StronglySorted_cons in Hs' as [Hall _].
      eapply Forall_impl; [exact Hall|]. cbn. intros z Hz.
      etrans; [|exact Hz]. by apply Is_true_true.
    + (* y is strictly below x: x goes further *)
      rewrite Hins. cbn [mbind result_bind].
      assert (Hyx : String.le (key (snd y)) (key (snd x))).
      { destruct (String.leb_total (key (snd x)) (key (snd y))) as [H|H];
          [congruence | by apply Is_true_true]. }
      assert (Hne : key (snd y) ≠ key (snd x)).
      { intros Heq. rewrite Heq in Hle.
        pose proof (reflexivity (R:=String.le) (key (snd x))) as Hr.
        apply Is_true_true in Hr. congruence. }
      exists (y :: l'). repeat split.
      * by apply Forall_cons.
      * rewrite Hp. apply perm_swap.
      * intros Hs'. apply StronglySorted_cons in Hs' as [Hall Hs'].
        apply SSorted_cons; [auto|].
        rewrite Hp. by apply Forall_cons.
      * intros k. rewrite !filter_cons, Hf, filter_cons.
        destruct (decide (key (snd y) = k)), (decide (key (snd x) = k));
          try done; congruence.
Qed.

Lemma sort_keyed_ok (l : list (value * A)) :
  Forall keyed l →
  ∃ s, sort_keyed l = Ok s
    ∧ Forall keyed s
    ∧ s ≡ₚ l
    ∧ StronglySorted le_key s
    ∧ ∀ k, filter (has_key k) s = filter (has_key k) l.
Proof.
  induction l as [|x l IH]; intros Hl.
  - exists []. repeat split; auto using SSorted_nil.
  - apply Forall_cons in Hl as [Hx Hl].
    destruct (IH Hl) as (s & Hs & Hk & Hp & Hsorted & Hf).
    destruct (sort_insert_ok x s Hx Hk) as (s' & Hins & Hk' & Hp' & Hs' & Hf').
    exists s'. cbn [sort_keyed]. rewrite Hs. cbn [mbind result_bind].
    repeat split; auto.
    + by rewrite Hp', Hp.
    + intros k. rewrite Hf', !filter_cons, Hf. done.
Qed.

End sorting.

Lemma for_each_keyed (l : list dict) :
  Forall (has_text "datetime") l →
  for_each keyed_by_datetime l
  = Ok (map (λ a, (VStr (field_text a "datetime"), a)) l).
Proof.
  induction 1 as [|a l [s Ha] _ IH]; [done|].
  cbn [for_each map]. rewrite IH.
  unfold keyed_by_datetime, getitem, field_text. by rewrite Ha.
Qed.

Lemma filter_map_snd {A} (P : A → Prop) `{∀ a, Decision (P a)}
    (l : list (value * A)) :
  filter P (map snd l) = map snd (filter (λ p, P (snd p)) l).
Proof.
  induction l as [|p l IH]; [done|].
  cbn [map]. rewrite !filter_cons. cbn. destruct (decide (P (snd p))); cbn; by rewrite IH.
Qed.

(** On records that all carry a text ["datetime"], [sorted] returns the
    stable ascending arrangement. *)
Lemma sorted_by_datetime_ok (l : list dict) :
  Forall (has_text "datetime") l →
  ∃ s, sorted_by_datetime l = Ok s
    ∧ stable_sorted_by (λ a, field_text a "datetime") l s.
Proof.
  intros Hl. unfold sorted_by_datetime. rewrite (for_each_keyed l Hl).
  cbn [mbind result_bind].
  set (dec := map (λ a, (VStr (field_text a "datetime"), a)) l).
  assert (Hsnd : map snd dec = l).
  { unfold dec. rewrite map_map. cbn. apply map_id. }
  destruct (sort_keyed_ok (λ a : dict, field_text a "datetime") dec)
    as (s & Hs & _ & Hp & Hsorted & Hf).
  { unfold dec. apply Forall_forall. intros p Hp.
    apply list_elem_of_In, in_map_iff in Hp as (a & <- & _). done. }
  rewrite Hs. exists (map snd s). split; [done|]. split; [|split].
  - rewrite <- Hsnd. by apply fmap_Permutation.
  - clear -Hsorted. induction Hsorted as [|p s' _ IH Hall]; cbn [map].
    + constructor.
    + constructor; [done|]. apply Forall_forall. intros b Hb.
      apply list_elem_of_In, in_map_iff in Hb as (q & <- & Hq).
      rewrite Forall_forall in Hall. apply Hall. by apply list_elem_of_In.
  - intros k. rewrite <- Hsnd. rewrite !filter_map_snd. f_equal. apply Hf.
Qed.

Lemma sort_insert_perm {A} (x : value * A) (l l' : list (value * A)) :
  sort_insert x l = Ok l' → l' ≡ₚ x :: l.
Proof.
  revert l'. induction l as [|y l IH]; intros l'; cbn [sort_insert].
  - by intros [= <-].
  - destruct (value_lt (fst y) (fst x)) as [[|]|]; cbn; [| |done].
    + destruct (sort_insert x l) as [l''|]; cbn; [|done].
      intros [= <-]. rewrite (IH l'' eq_refl). apply perm_swap.
    + by intros [= <-].
Qed.

Lemma sort_keyed_perm {A} (l s : list (value * A)) :
  sort_keyed l = Ok s → s ≡ₚ l.
Proof.
  revert s. induction l as [|x l IH]; intros s; cbn [sort_keyed].
  - by intros [= <-].
  - destruct (sort_keyed l) as [s'|]; cbn; [|done].
    intros Hins%sort_insert_perm. by rewrite Hins, (IH s' eq_refl).
Qed.

(** Whatever [sorted] returns is a rearrangement of the collection. *)
Lemma sorted_by_datetime_perm (l s : list dict) :
  sorted_by_datetime l = Ok s → s ≡ₚ l.
Proof.
  unfold sorted_by_datetime.
  destruct (for_each keyed_by_datetime l) as [keyed|] eqn:Hk; cbn; [|done].
  destruct (sort_keyed keyed) as [s'|] eqn:Hs; cbn; [|done].
  intros [= <-]. apply sort_keyed_perm in Hs. rewrite Hs.
  clear Hs. revert keyed Hk. induction l as [|a l IH]; intros keyed.
  - by intros [= <-].
  - cbn [for_each].
    destruct (keyed_by_datetime a) as [p|] eqn:Hp; cbn; [|done].
    destruct (for_each keyed_by_datetime l) as [k|]; cbn; [|done].
    intros [= <-]. cbn. unfold keyed_by_datetime in Hp.
    destruct (getitem a "datetime"); cbn in Hp; [|done].
    injection Hp as <-. cbn. f_equiv. by apply IH.
Qed.

Lemma with_id_nil (v : value) (l : list dict) :
  with_id v l = [] ↔ Forall (λ a, a !! "id" ≠ Some v) l.
Proof.
  unfold with_id. induction l as [|a l IH].
  - split; [constructor | done].
  - rewrite filter_cons, Forall_cons.
    destruct (decide (a !! "id" = Some v)); [|by rewrite IH; tauto].
    split; [done | tauto].
Qed.

Lemma filter_all {A} (P : A → Prop) `{∀ a, Decision (P a)} (l : list A) :
  Forall P l → filter P l = l.
Proof.
  induction 1 as [|a l Ha _ IH]; [done|].
  rewrite filter_cons. destruct (decide (P a)); [by f_equal | done].
Qed.

Lemma length_without_with (v : value) (l : list dict) :
  length (filter (λ a, a !! "id" ≠ Some v) l) + length (with_id v l)
  = length l.
Proof.
  unfold with_id. induction l as [|a l IH]; [done|].
  rewrite !filter_cons.
  destruct (decide (a !! "id" = Some v)), (decide (a !! "id" ≠ Some v));
    cbn [length]; try done; lia.
Qed.

Lemma pair_eta_snd {A B} (p : A * B) (b : B) : snd p = b → p = (fst p, b).
Proof. destruct p. cbn. by intros ->. Qed.

(** ** Cells *)

Lemma substring_all (s : string) (n : nat) :
  String.length s ≤ n → String.substring 0 n s = s.
Proof.
  revert n. induction s as [|c s IH]; intros [|n] Hn; cbn in *;
    try done; try lia.
  f_equal. apply IH. lia.
Qed.

Lemma check_string_ok (s : string) : cell_text s → check_string s = Ok s.
Proof.
  intros [Hlen Hlegal]. unfold check_string. cbn zeta.
  rewrite (substring_all s 32767 Hlen). by rewrite Hlegal.
Qed.

Lemma ws_append_ok (row : list value) :
  Forall (λ v, ∀ s, v = VStr s → cell_text s) row →
  ws_append row = Ok row.
Proof.
  unfold ws_append. induction 1 as [|v row Hv _ IH]; [done|].
  cbn [for_each]. rewrite IH. destruct v as [|s]; [done|].
  cbn [bind_value]. by rewrite (check_string_ok s (Hv s eq_refl)).
Qed.

Lemma ws_append_headers : ws_append (VStr <$> HEADERS) = Ok (VStr <$> HEADERS).
Proof. reflexivity. Qed.

Lemma storable_row (a : dict) :
  storable a →
  for_each (getitem a) HEADERS = Ok (row_of a)
  ∧ ws_append (row_of a) = Ok (row_of a).
Proof.
  intros (Hkeys & _ & Htext). split.
  - unfold row_of, HEADERS, getitem. cbn [for_each map].
    repeat match goal with
    | |- context [a !! ?k] =>
        lazymatch goal with
        | Hk : a !! k = Some _ |- _ => fail
        | _ => let v := fresh "v" in let Hv := fresh "Hv" in
               destruct (proj2 (Hkeys k)) as [v Hv]; [set_solver|]
        end
    end.
    by repeat match goal with Hk : a !! _ = Some _ |- _ => rewrite Hk; clear Hk end.
  - apply ws_append_ok, Forall_forall. intros v Hv s ->.
    unfold row_of in Hv. apply list_elem_of_In, in_map_iff in Hv as (h & Hh & _).
    destruct (a !! h) as [u|] eqn:Hu; cbn in Hh; [|done]. subst u. eauto.
Qed.

Lemma load_row_of (a : dict) :
  storable a →
  list_to_map (zip HEADERS (map written (row_of a))) = written <$> a.
Proof.
  intros (Hkeys & _ & _). apply map_eq. intros k. rewrite lookup_fmap.
  unfold row_of, HEADERS. cbn [map zip zip_with list_to_map foldr].
  destruct (decide (k ∈ HEADERS)) as [Hk|Hk].
  - pose proof (proj2 (Hkeys k) Hk) as [v Hv].
    unfold HEADERS in Hk.
    repeat (apply elem_of_cons in Hk as [->|Hk];
            [rewrite Hv; by simplify_map_eq|]).
    by apply elem_of_nil in Hk.
  - assert (a !! k = None) as ->.
    { apply eq_None_not_Some. by rewrite Hkeys. }
    unfold HEADERS in Hk. cbn.
    rewrite !lookup_insert_ne; [done|intros <-; apply Hk; set_solver..].
Qed.

Lemma written_truthy (v : value) : truthy (written v) = truthy v.
Proof. by destruct v as [|[|c s]]. Qed.

Lemma written_fmap_id (a : dict) :
  (∀ k, a !! k ≠ Some (VStr "")) → written <$> a = a.
Proof.
  intros Ha. apply map_eq. intros k. rewrite lookup_fmap.
  specialize (Ha k). by destruct (a !! k) as [[|[|c s]]|].
Qed.

(** ** str.strip() *)

Lemma lstrip_chars_spec (l : list ascii) :
  ∃ pre, l = pre ++ lstrip_chars l
    ∧ all_space pre
    ∧ ∀ c, head (lstrip_chars l) = Some c → isspace c = false.
Proof.
  induction l as [|c l (pre & Hl & Hpre & Hhd)]; cbn [lstrip_chars].
  - exists []. repeat split; [constructor | done].
  - destruct (isspace c) eqn:Hc.
    + exists (c :: pre). repeat split; [by cbn; f_equal | by constructor | done].
    + exists []. repeat split; [constructor|]. by intros c' [= <-].
Qed.

Lemma strip_chars_spec (l : list ascii) :
  ∃ pre post, l = pre ++ strip_chars l ++ post
    ∧ all_space pre ∧ all_space post
    ∧ (∀ c, head (strip_chars l) = Some c → isspace c = false)
    ∧ (∀ c, last (strip_chars l) = Some c → isspace c = false).
Proof.
  unfold strip_chars.
  destruct (lstrip_chars_spec l) as (pre & Hl & Hpre & Hhd).
  destruct (lstrip_chars_spec (reverse (lstrip_chars l)))
    as (q & Hm & Hq & Hhd').
  set (m := lstrip_chars l) in *.
  set (r := lstrip_chars (reverse m)) in *.
  assert (Hmr : m = reverse r ++ reverse q).
  { rewrite <- reverse_app, <- Hm. by rewrite reverse_involutive. }
  exists pre, (reverse q). repeat split.
  - by rewrite <- Hmr.
  - done.
  - unfold all_space. by apply Forall_reverse.
  - intros c Hc. apply Hhd. rewrite Hmr.
    destruct (reverse r); [done|]. by cbn in *.
  - intros c Hc. apply Hhd'. by rewrite <- last_reverse.
Qed.

Lemma strip_stripped_of (raw : string) : stripped_of raw (strip raw).
Proof.
  unfold stripped_of, strip. rewrite list_ascii_of_string_of_list_ascii.
  destruct (strip_chars_spec (list_ascii_of_string raw))
    as (pre & post & ? & ? & ? & ? & ?).
  by exists pre, post.
Qed.

Example strip_examples :
  strip ("  Ann Lee " +:+ String "009" (String "010" "")) = "Ann Lee"
  ∧ strip (String "160" " ") = ""
  ∧ strip "" = ""
  ∧ strip " Ann  Lee" = "Ann  Lee".
Proof. repeat split; reflexivity. Qed.

(** ** The handlers *)

Section properties.

Context `{Host}.

(** *** count_in_hour *)

Lemma same_hour_spec (dt : datetime) (a : dict) :
  match same_hour dt a with
  | Ok true => bucket_of_appt a = Some (bucket_of dt)
  | _ => bucket_of_appt a ≠ Some (bucket_of dt)
  end.
Proof.
  unfold same_hour, bucket_of_appt, getitem,
    datetime_fromisoformat.
  destruct (a !! "datetime") as [[|s]|]; cbn; try done.
  destruct (fromisoformat s) as [d|]; cbn; [|done].
  case_bool_decide as Hb; [by rewrite Hb|].
  congruence.
Qed.

Lemma count_loop (dt : datetime) (appts : list dict) (n : nat) :
  foldl (λ count a,
           match same_hour dt a with
           | Ok true => S count
           | Ok false => count
           | Raise _ => count
           end) n appts
  = n + bucket_count (bucket_of dt) appts.
Proof.
  unfold bucket_count. revert n.
  induction appts as [|a appts IH]; intros n; cbn [foldl].
  - cbn. lia.
  - rewrite IH, filter_cons. pose proof (same_hour_spec dt a) as Hs.
    destruct (same_hour dt a) as [[|]|];
      destruct (decide (bucket_of_appt a = Some (bucket_of dt)));
      cbn [length]; try done; lia.
Qed.

Lemma count_in_hour_parsed (s : string) (d : datetime) (appts : list dict) :
  fromisoformat s = Some d →
  count_in_hour (VStr s) appts = Ok (bucket_count (bucket_of d) appts).
Proof.
  intros Hs. unfold count_in_hour, datetime_fromisoformat.
  rewrite Hs. by rewrite count_loop.
Qed.

(** C8.  [count_in_hour] never raises: it returns 0 for a candidate that
    does not parse, and otherwise the number of stored records whose
    ["datetime"] parses into the candidate's (year, month, day, hour);
    records without a parsable ["datetime"] are not counted. *)
Theorem C8_count_in_hour_total (dt_iso : value) (appts : list dict) :
  count_in_hour dt_iso appts
  = Ok (match datetime_fromisoformat dt_iso with
        | Raise _ => 0
        | Ok dt =>
            length (filter (λ a, bucket_of_appt a = Some (bucket_of dt)) appts)
        end).
Proof.
  unfold count_in_hour.
  destruct (datetime_fromisoformat dt_iso) as [dt|x]; [|done].
  by rewrite count_loop.
Qed.

(** *** The capacity invariant *)

Lemma bucket_count_snoc (b : bucket) (appts : list dict) (a : dict) :
  bucket_count b (appts ++ [a])
  = bucket_count b appts + (if decide (bucket_of_appt a = Some b) then 1 else 0).
Proof.
  unfold bucket_count.
  rewrite filter_app, length_app, filter_cons, filter_nil.
  by destruct (decide (bucket_of_appt a = Some b)).
Qed.

Lemma without_id_filter (v : value) (appts kept : list dict) :
  without_id v appts = Ok kept →
  kept = filter (λ a, a !! "id" ≠ Some v) appts
  ∧ Forall (λ a, is_Some (a !! "id")) appts.
Proof.
  revert kept. induction appts as [|a appts IH]; intros kept; cbn [without_id].
  - intros [= <-]. split; [done | constructor].
  - unfold getitem. destruct (a !! "id") as [u|] eqn:Hu; cbn; [|done].
    destruct (without_id v appts) as [k|] eqn:Hk; cbn; [|done].
    destruct (IH k eq_refl) as [-> Hall]. intros [= <-].
    split; [|constructor; eauto].
    rewrite ?filter_cons, ?Hu.
    repeat case_decide; try done; try congruence; exfalso; naive_solver.
Qed.

Lemma without_id_total (v : value) (appts : list dict) :
  Forall (λ a, is_Some (a !! "id")) appts →
  without_id v appts = Ok (filter (λ a, a !! "id" ≠ Some v) appts).
Proof.
  induction 1 as [|a appts [u Hu] _ IH]; [done|].
  cbn [without_id]. unfold getitem. rewrite Hu, IH. cbn.
  rewrite ?filter_cons, ?Hu. f_equal.
  repeat case_decide; try done; try congruence; exfalso; naive_solver.
Qed.

Lemma bucket_count_filter_le (P : dict → Prop) `{∀ a, Decision (P a)}
    (b : bucket) (appts : list dict) :
  bucket_count b (filter P appts) ≤ bucket_count b appts.
Proof.
  unfold bucket_count.
  induction appts as [|a appts IH]; [done|].
  rewrite (filter_cons P). destruct (decide (P a)).
  - rewrite !filter_cons.
    destruct (decide (bucket_of_appt a = Some b)); cbn [length]; lia.
  - rewrite filter_cons.
    destruct (decide (bucket_of_appt a = Some b)); cbn [length]; lia.
Qed.

Lemma new_appt_bucket (e : env) (name address reason dt : string) (d : datetime) :
  fromisoformat dt = Some d →
  bucket_of_appt (new_appt e name address reason dt) = Some (bucket_of d).
Proof.
  intros Hd. unfold bucket_of_appt, new_appt.
  rewrite !lookup_insert_ne by done. rewrite lookup_insert_eq.
  by rewrite Hd.
Qed.

Lemma api_POST_capacity (e : env) (data : dict) (w : world) :
  capacity_ok (appointments w) →
  capacity_ok (appointments (fst (api_POST e data w))).
Proof.
  intros Hw. unfold api_POST.
  destruct (post_fields data) as [[[[name address] reason] dt]|]; [|done].
  destruct (bool_decide (name = "") || bool_decide (dt = "")); [done|].
  unfold datetime_fromisoformat.
  destruct (fromisoformat dt) as [d|] eqn:Hd; [|done].
  rewrite (count_in_hour_parsed dt d _ Hd).
  destruct (Nat.leb_spec MAX_PER_HOUR (bucket_count (bucket_of d) (appointments w)))
    as [Hfull|Hfree]; [done|].
  destruct (save_excel e _ (disk w)) as [fs r]. cbn [fst appointments].
  intros b. rewrite bucket_count_snoc, (new_appt_bucket _ _ _ _ _ d Hd).
  destruct (decide (Some (bucket_of d) = Some b)) as [[= <-]|_].
  - lia.
  - specialize (Hw b). lia.
Qed.

Lemma api_DELETE_capacity (e : env) (data : dict) (w : world) :
  capacity_ok (appointments w) →
  capacity_ok (appointments (fst (api_DELETE e data w))).
Proof.
  intros Hw. unfold api_DELETE.
  destruct (without_id _ (appointments w)) as [kept|] eqn:Hk; [|done].
  apply without_id_filter in Hk as [-> _].
  assert (capacity_ok (filter (λ a : dict,
            a !! "id" ≠ Some (default VNone (data !! "id"))) (appointments w))).
  { intros b. etrans; [apply bucket_count_filter_le | apply Hw]. }
  destruct (_ =? _)%nat; [done|].
  by destruct (save_excel e _ (disk w)).
Qed.

Lemma handle_capacity (e : env) (r : request) (w : world) :
  capacity_ok (appointments w) →
  capacity_ok (appointments (fst (handle e r w))).
Proof.
  destruct r; cbn [handle].
  - done.
  - apply api_POST_capacity.
  - apply api_DELETE_capacity.
  - unfold download_excel. by destruct (save_excel e _ (disk w)).
Qed.

Lemma run_capacity (rs : list (env * request)) (w : world) :
  capacity_ok (appointments w) →
  capacity_ok (appointments (run rs w)).
Proof.
  revert w. induction rs as [|[e r] rs IH]; intros w Hw; [done|].
  cbn [run foldl]. apply IH. by apply handle_capacity.
Qed.

(** C1, as amended.  When the collection that [load_excel] builds at
    startup holds at most [MAX_PER_HOUR] records in every (year, month,
    day, hour), so does every state reached from it by requests. *)
Theorem C1_capacity_invariant (fs : filesystem) (w : world)
    (rs : list (env * request)) :
  startup fs = Ok w →
  capacity_ok (appointments w) →
  capacity_ok (appointments (run rs w)).
Proof. intros _. apply run_capacity. Qed.

(** Without a ledger file the collection starts empty, and the bound holds
    from then on. *)
Lemma capacity_without_ledger (fs : filesystem) (rs : list (env * request)) :
  fs !! excel_path = None →
  ∃ w, startup fs = Ok w ∧ capacity_ok (appointments (run rs w)).
Proof.
  intros Hfs. exists (mk_world [] fs). split.
  - unfold startup, load_excel. by rewrite Hfs.
  - apply run_capacity. intros b. cbn. unfold MAX_PER_HOUR. lia.
Qed.

(** *** save_excel *)

Lemma temp_path_ne (e : env) : temp_path e ≠ excel_path.
Proof.
  unfold temp_path, excel_path, EXCEL_FILE. by intros [=].
Qed.

(** The two phases of [save_excel]: apart from the temporary file, which
    lies in [tempdir], the ledger is the only path a save changes, and it
    changes only in the final [os.replace]: a save that raises leaves the
    ledger as it was, a save that returns has put the new sheet there and
    removed the temporary file. *)
Lemma save_excel_spec (e : env) (appts : list dict) (fs fs' : filesystem)
    (r : result unit) :
  save_excel e appts fs = (fs', r) →
  (∀ p, p ≠ excel_path → p ≠ temp_path e → fs' !! p = fs !! p)
  ∧ match r with
    | Ok _ =>
        ∃ rows, sheet_rows appts = Ok rows
          ∧ fs' !! excel_path = Some (Workbook (map (map written) rows))
          ∧ fs' !! temp_path e = None
          ∧ fs !! temp_path e = None
    | Raise _ => fs' !! excel_path = fs !! excel_path
    end.
Proof.
  pose proof (temp_path_ne e) as Hne.
  unfold save_excel, mkstemp, wb_save, os_replace.
  destruct (sheet_rows appts) as [rows|x]; [|by intros [= <- <-]].
  destruct (decide (io_fault e = Some FailMkstemp)); [by intros [= <- <-]|].
  destruct (fs !! temp_path e) eqn:Htmp; [by intros [= <- <-]|].
  destruct (decide (io_fault e = Some FailSave)).
  { intros [= <- <-]. split; intros; by simplify_map_eq. }
  destruct (decide (io_fault e = Some FailReplace)).
  { intros [= <- <-]. split; intros; by simplify_map_eq. }
  rewrite lookup_insert_eq. intros [= <- <-]. split.
  - intros p Hp1 Hp2. by simplify_map_eq.
  - exists rows. repeat split; by simplify_map_eq.
Qed.

Lemma save_excel_error_keeps_ledger (e : env) (appts : list dict)
    (fs fs' : filesystem) (x : exn) :
  save_excel e appts fs = (fs', Raise x) →
  fs' !! excel_path = fs !! excel_path.
Proof. intros Hs. by destruct (save_excel_spec _ _ _ _ _ Hs) as [_ ?]. Qed.

Lemma save_excel_success (e : env) (appts : list dict) (fs : filesystem)
    (rows : list (list value)) :
  sheet_rows appts = Ok rows →
  io_fault e = None →
  fs !! temp_path e = None →
  ∃ fs', save_excel e appts fs = (fs', Ok ())
    ∧ fs' !! excel_path = Some (Workbook (map (map written) rows)).
Proof.
  intros Hrows Hf Htmp. pose proof (temp_path_ne e) as Hne.
  unfold save_excel, mkstemp, wb_save, os_replace.
  rewrite Hrows, Hf, Htmp. rewrite !decide_False by done.
  rewrite lookup_insert_eq.
  eexists. split; [done|]. by simplify_map_eq.
Qed.

(** A fault of the surroundings makes the save raise [OSError], whatever
    the collection, unless building the sheet has raised before. *)
Lemma save_excel_fault (e : env) (appts : list dict) (fs : filesystem)
    (f : fault) (rows : list (list value)) :
  sheet_rows appts = Ok rows →
  io_fault e = Some f →
  fs !! temp_path e = None →
  snd (save_excel e appts fs) = Raise OSError.
Proof.
  intros Hrows Hf Htmp.
  unfold save_excel, mkstemp, wb_save, os_replace.
  rewrite Hrows, Htmp, Hf.
  destruct f.
  - by rewrite decide_True.
  - rewrite decide_False by done. by rewrite decide_True.
  - rewrite !(decide_False (P:=Some FailReplace = Some _)) by done.
    by rewrite decide_True.
Qed.

(** *** POST *)

Lemma get_strip_text (data : dict) (k : string) :
  data !! k ≠ Some VNone →
  get_strip data k = Ok (strip (field_text data k)).
Proof. unfold get_strip, field_text. by destruct (data !! k) as [[|s]|]. Qed.

Lemma get_strip_inv (data : dict) (k s : string) :
  get_strip data k = Ok s →
  data !! k ≠ Some VNone ∧ s = strip (field_text data k).
Proof.
  unfold get_strip, field_text.
  destruct (data !! k) as [[|t]|]; cbn; intros [= <-]; by split.
Qed.

Lemma post_fields_text (data : dict) :
  text_body data →
  post_fields data
  = Ok (strip (field_text data "name"), strip (field_text data "address"),
        strip (field_text data "reason"), strip (field_text data "datetime")).
Proof.
  intros Ht. unfold post_fields.
  rewrite !get_strip_text; [done|apply Ht; set_solver..].
Qed.

Lemma post_fields_inv (data : dict) (name address reason dt : string) :
  post_fields data = Ok (name, address, reason, dt) →
  text_body data
  ∧ name = strip (field_text data "name")
  ∧ address = strip (field_text data "address")
  ∧ reason = strip (field_text data "reason")
  ∧ dt = strip (field_text data "datetime").
Proof.
  unfold post_fields.
  destruct (get_strip data "name") as [n|] eqn:Hn; cbn; [|done].
  destruct (get_strip data "address") as [a|] eqn:Ha; cbn; [|done].
  destruct (get_strip data "reason") as [r|] eqn:Hr; cbn; [|done].
  destruct (get_strip data "datetime") as [d|] eqn:Hd; cbn; [|done].
  intros [= <- <- <- <-].
  apply get_strip_inv in Hn as [? ?], Ha as [? ?], Hr as [? ?], Hd as [? ?].
  repeat split; try done.
  intros k Hk. repeat (apply elem_of_cons in Hk as [->|Hk]; [done|]).
  by apply elem_of_nil in Hk.
Qed.

(** The four outcomes of a POST whose fields are text. *)
Lemma api_POST_unfold (e : env) (data : dict) (w : world)
    (name address reason dt : string) :
  post_fields data = Ok (name, address, reason, dt) →
  api_POST e data w
  = if bool_decide (name = "" ∨ dt = "") then
      (w, Ok (RError 400 "Name and datetime are required."))
    else
      match fromisoformat dt with
      | None => (w, Ok (RError 400 "Invalid datetime format."))
      | Some d =>
          if bool_decide (MAX_PER_HOUR ≤ bucket_count (bucket_of d) (appointments w))
          then (w, Ok (RError 409 "Hour full (max 4)."))
          else
            let a := new_appt e name address reason dt in
            let appts := appointments w ++ [a] in
            (mk_world appts (fst (save_excel e appts (disk w))),
             _ ← snd (save_excel e appts (disk w)); Ok (RCreated a))
      end.
Proof.
  intros Hp. unfold api_POST. rewrite Hp.
  destruct (decide (name = "")) as [->|Hn].
  { by rewrite bool_decide_true by auto. }
  destruct (decide (dt = "")) as [->|Hd].
  { rewrite (bool_decide_true (_ ∨ _)) by auto.
    by rewrite orb_true_r. }
  rewrite (bool_decide_false (name = "")), (bool_decide_false (dt = "")),
    (bool_decide_false (_ ∨ _)) by tauto.
  cbn [orb]. unfold datetime_fromisoformat.
  destruct (fromisoformat dt) as [d|] eqn:Hdt; [|done].
  rewrite (count_in_hour_parsed dt d _ Hdt).
  destruct (Nat.leb_spec MAX_PER_HOUR (bucket_count (bucket_of d) (appointments w))).
  - by rewrite bool_decide_true.
  - rewrite bool_decide_false by lia.
    by destruct (save_excel e _ (disk w)).
Qed.

(** C2, as amended.  A POST with text fields (none of name, address,
    reason and datetime is [null]), a name and a datetime that are not
    empty once stripped, and a datetime that parses into an hour which
    already holds [MAX_PER_HOUR] records (or more) is answered 409 with
    ["Hour full (max 4)."]; neither the collection nor any file
    changes. *)
Theorem C2_hour_full (e : env) (data : dict) (w : world) (d : datetime) :
  text_body data →
  strip (field_text data "name") ≠ "" →
  strip (field_text data "datetime") ≠ "" →
  fromisoformat (strip (field_text data "datetime")) = Some d →
  MAX_PER_HOUR ≤ bucket_count (bucket_of d) (appointments w) →
  handle e (POST data) w = (w, Ok (RError 409 "Hour full (max 4).")).
Proof.
  intros Ht Hn Hd Hp Hfull. cbn [handle].
  rewrite (api_POST_unfold _ _ _ _ _ _ _ (post_fields_text _ Ht)).
  rewrite bool_decide_false by tauto. rewrite Hp.
  by rewrite bool_decide_true.
Qed.




(** C10.  The record that a successful POST returns holds the request's
    name, address, reason and datetime without their leading and trailing
    whitespace, the empty string for an address or reason that the body
    lacks, the string of the UUID drawn for the request as its id and the
    UTC time read for the request as its created_at; it is the record
    appended to the collection. *)
Theorem C10_created_record (e : env) (data : dict) (w w' : world) (a : dict) :
  handle e (POST data) w = (w', Ok (RCreated a)) →
  (∀ k, k ∈ ["name"; "address"; "reason"; "datetime"] →
     ∃ s, a !! k = Some (VStr s) ∧ stripped_of (field_text data k) s)
  ∧ (∀ k, k ∈ ["address"; "reason"] → data !! k = None →
       a !! k = Some (VStr ""))
  ∧ a !! "id" = Some (VStr (uuid4 e))
  ∧ a !! "created_at" = Some (VStr (utcnow e))
  ∧ appointments w' = appointments w ++ [a].
Proof.
  cbn [handle]. intros Hpost.
  destruct (post_fields data) as [[[[name address] reason] dt]|x] eqn:Hp.
  2:{ unfold api_POST in Hpost. by rewrite Hp in Hpost. }
  rewrite (api_POST_unfold _ _ _ _ _ _ _ Hp) in Hpost.
  apply post_fields_inv in Hp as (Ht & -> & -> & -> & ->).
  case_bool_decide; [done|].
  destruct (fromisoformat _) as [d|]; [|done].
  case_bool_decide; [done|]. cbn zeta in Hpost.
  destruct (snd (save_excel e _ (disk w))); [|done].
  cbn in Hpost. injection Hpost as <- <-.
  unfold new_appt. split; [|split; [|split; [|split]]].
  - intros k Hk.
    repeat (apply elem_of_cons in Hk as [->|Hk];
            [eexists; split; [by simplify_map_eq | apply strip_stripped_of]|]).
    by apply elem_of_nil in Hk.
  - intros k Hk Hnone.
    repeat (apply elem_of_cons in Hk as [->|Hk];
            [unfold field_text; rewrite Hnone; by simplify_map_eq|]).
    by apply elem_of_nil in Hk.
  - by simplify_map_eq.
  - by simplify_map_eq.
  - done.
Qed.

(** C9.  When [save_excel] raises after the handler has changed the
    collection, the handler does not undo the change: the new record stays
    appended (the deleted records stay removed), the exception escapes
    the handler, and the ledger file is as it was before the request. *)
Theorem C9_no_rollback (e : env) (data : dict) (w : world)
    (fs' : filesystem) (x : exn) :
  (∀ d,
     text_body data →
     strip (field_text data "name") ≠ "" →
     strip (field_text data "datetime") ≠ "" →
     fromisoformat (strip (field_text data "datetime")) = Some d →
     bucket_count (bucket_of d) (appointments w) < MAX_PER_HOUR →
     let a := new_appt e (strip (field_text data "name"))
                (strip (field_text data "address"))
                (strip (field_text data "reason"))
                (strip (field_text data "datetime")) in
     save_excel e (appointments w ++ [a]) (disk w) = (fs', Raise x) →
     handle e (POST data) w = (mk_world (appointments w ++ [a]) fs', Raise x)
     ∧ fs' !! excel_path = disk w !! excel_path)
  ∧ (∀ kept,
       without_id (default VNone (data !! "id")) (appointments w) = Ok kept →
       length kept ≠ length (appointments w) →
       save_excel e kept (disk w) = (fs', Raise x) →
       handle e (DELETE data) w = (mk_world kept fs', Raise x)
       ∧ fs' !! excel_path = disk w !! excel_path).
Proof.
  split.
  - intros d Ht Hn Hd Hp Hfree a Hsave. cbn [handle].
    rewrite (api_POST_unfold _ _ _ _ _ _ _ (post_fields_text _ Ht)).
    rewrite bool_decide_false by tauto. rewrite Hp.
    rewrite bool_decide_false by lia. cbn zeta. fold a. rewrite Hsave.
    split; [done|]. by eapply save_excel_error_keeps_ledger.
  - intros kept Hk Hlen Hsave. cbn [handle]. unfold api_DELETE.
    rewrite Hk. apply Nat.eqb_neq in Hlen. rewrite Hlen, Hsave.
    split; [done|]. by eapply save_excel_error_keeps_ledger.
Qed.

(** *** GET *)

Lemma handle_text_datetime (e : env) (r : request) (w : world) :
  Forall (has_text "datetime") (appointments w) →
  Forall (has_text "datetime") (appointments (fst (handle e r w))).
Proof.
  intros Hw. destruct r as [|data|data|]; cbn [handle].
  - done.
  - unfold api_POST.
    destruct (post_fields data) as [[[[name address] reason] dt]|]; [|done].
    destruct (_ || _); [done|].
    destruct (datetime_fromisoformat _); [|done].
    destruct (count_in_hour _ _); [|done].
    destruct (_ <=? _)%nat; [done|].
    destruct (save_excel e _ (disk w)). cbn [fst appointments].
    apply Forall_app. split; [done|]. apply Forall_singleton.
    eexists. unfold new_appt. by simplify_map_eq.
  - unfold api_DELETE.
    destruct (without_id _ _) as [kept|] eqn:Hk; [|done].
    apply without_id_filter in Hk as [-> _].
    assert (Forall (has_text "datetime")
              (filter (λ a : dict, a !! "id" ≠ Some (default VNone (data !! "id")))
                 (appointments w))).
    { rewrite Forall_forall in Hw |- *. intros a Ha.
      apply list_elem_of_filter in Ha as [_ Ha]. by apply Hw. }
    destruct (_ =? _)%nat; [done|]. by destruct (save_excel e _ (disk w)).
  - unfold download_excel. by destruct (save_excel e _ (disk w)).
Qed.

Lemma run_text_datetime (rs : list (env * request)) (w : world) :
  Forall (has_text "datetime") (appointments w) →
  Forall (has_text "datetime") (appointments (run rs w)).
Proof.
  revert w. induction rs as [|[e r] rs IH]; intros w Hw; [done|].
  cbn [run foldl]. apply IH. by apply handle_text_datetime.
Qed.

(** C7.  In every state reached from the empty collection by requests, a
    GET succeeds, changes nothing, and lists the collection in ascending
    order of ["datetime"] under string comparison, records with the same
    ["datetime"] in the order of the collection, which is the order of
    insertion (empty when there is none). *)
Theorem C7_list_sorted (rs : list (env * request)) (fs : filesystem)
    (e : env) :
  let w := run rs (mk_world [] fs) in
  ∃ s, handle e GET w = (w, Ok (RList s))
    ∧ stable_sorted_by (λ a, field_text a "datetime") (appointments w) s.
Proof.
  intros w.
  destruct (sorted_by_datetime_ok (appointments w)) as (s & Hs & Hsorted).
  { apply run_text_datetime. constructor. }
  exists s. split; [|done]. cbn [handle]. unfold api_GET. by rewrite Hs.
Qed.

(** *** DELETE *)

Lemma delete_with_ids (e : env) (data : dict) (w : world) :
  let v := default VNone (data !! "id") in
  let kept := filter (λ a, a !! "id" ≠ Some v) (appointments w) in
  Forall (λ a, is_Some (a !! "id")) (appointments w) →
  (with_id v (appointments w) ≠ [] →
     length kept + length (with_id v (appointments w))
     = length (appointments w)
     ∧ (length (with_id v (appointments w)) = 1 →
          S (length kept) = length (appointments w))
     ∧ with_id v kept = []
     ∧ appointments (fst (handle e (DELETE data) w)) = kept
     ∧ ∀ fs', save_excel e kept (disk w) = (fs', Ok ()) →
         handle e (DELETE data) w = (mk_world kept fs', Ok RDone)
         ∧ (∀ e' s, snd (handle e' GET (mk_world kept fs')) = Ok (RList s) →
              with_id v s = [])
         ∧ (∀ e', handle e' (DELETE data) (mk_world kept fs')
                  = (mk_world kept fs',
                     Ok (RError 404 "Appointment not found"))))
  ∧ (with_id v (appointments w) = [] →
       handle e (DELETE data) w
       = (w, Ok (RError 404 "Appointment not found"))).
Proof.
  intros v kept Hids.
  pose proof (length_without_with v (appointments w)) as Hlen. fold kept in Hlen.
  assert (Hkept : with_id v kept = []).
  { apply with_id_nil, Forall_forall. intros a Ha.
    by apply list_elem_of_filter in Ha as [? _]. }
  assert (Hstep : ∀ e0, api_DELETE e0 data w
            = if (length kept =? length (appointments w))%nat
              then (mk_world kept (disk w),
                    Ok (RError 404 "Appointment not found"))
              else (mk_world kept (fst (save_excel e0 kept (disk w))),
                    _ ← snd (save_excel e0 kept (disk w)); Ok RDone)).
  { intros e0. unfold api_DELETE. fold v.
    rewrite (without_id_total v _ Hids). fold kept.
    destruct (_ =? _)%nat; [done|]. by destruct (save_excel e0 kept (disk w)). }
  split.
  - intros Hsome.
    assert (length (with_id v (appointments w)) ≠ 0).
    { by destruct (with_id v (appointments w)). }
    assert (Hneq : (length kept =? length (appointments w))%nat = false).
    { apply Nat.eqb_neq. lia. }
    split; [exact Hlen|]. split; [lia|].
    split; [done|]. cbn [handle]. rewrite Hstep, Hneq.
    split; [done|]. intros fs' Hsave. rewrite Hsave. cbn [fst snd].
    split; [done|]. split.
    + intros _ s. cbn [handle api_GET snd appointments].
      destruct (sorted_by_datetime kept) as [s'|] eqn:Hs; cbn; [|done].
      intros [= <-]. apply sorted_by_datetime_perm in Hs.
      apply with_id_nil. rewrite Hs. by apply with_id_nil.
    + intros e'. unfold api_DELETE. cbn [appointments disk]. fold v.
      assert (Hids' : Forall (λ a : dict, is_Some (a !! "id")) kept).
      { rewrite Forall_forall in Hids |- *. intros a Ha.
        apply list_elem_of_filter in Ha as [_ Ha]. by apply Hids. }
      rewrite (without_id_total v _ Hids').
      rewrite (filter_all _ kept) by by apply with_id_nil.
      by rewrite Nat.eqb_refl.
  - intros Hnone. cbn [handle]. rewrite Hstep.
    assert (kept = appointments w) as ->.
    { apply filter_all. by apply with_id_nil. }
    rewrite Nat.eqb_refl. by destruct w.
Qed.

(** *** save_excel then load_excel *)

Lemma sheet_rows_storable (appts : list dict) :
  Forall storable appts →
  sheet_rows appts = Ok ((VStr <$> HEADERS) :: map row_of appts).
Proof.
  intros Hs. unfold sheet_rows. rewrite ws_append_headers. cbn [mbind result_bind].
  assert (for_each (λ a, vs ← for_each (getitem a) HEADERS; ws_append vs) appts
          = Ok (map row_of appts)) as ->; [|done].
  induction Hs as [|a appts Ha _ IH]; [done|].
  cbn [for_each map]. destruct (storable_row a Ha) as [-> Hrow].
  cbn [mbind result_bind]. by rewrite Hrow, IH.
Qed.

Lemma load_rows_storable (appts : list dict) :
  Forall storable appts →
  omap load_row (map (map written) (map row_of appts))
  = map (fmap written) appts.
Proof.
  induction 1 as [|a appts Ha _ IH]; [done|].
  cbn [map omap list_omap]. rewrite IH.
  assert (load_row (map written (row_of a)) = Some (written <$> a)) as ->; [|done].
  pose proof (load_row_of a Ha) as Hmap.
  destruct Ha as (_ & (s & Hid & Hs) & _).
  assert (Hd : default VNone (a !! "id") = VStr s) by by rewrite Hid.
  unfold load_row. unfold row_of, HEADERS in *. cbn [map] in *.
  rewrite Hd in *. rewrite written_truthy. cbn [truthy].
  apply String.eqb_neq in Hs. rewrite Hs. cbn [negb]. by rewrite Hmap.
Qed.

(** C5, as amended.  For a collection of records that each hold exactly
    the six fields, a non-empty id and texts that a cell takes as they
    are, a save that no fault interrupts succeeds, and the load that
    follows it yields the saved records in the saved order with every
    empty string read back as [None]; it yields the collection itself
    when no field is the empty string. *)
Theorem C5_save_then_load (e : env) (appts : list dict) (fs : filesystem) :
  Forall storable appts →
  io_fault e = None →
  fs !! temp_path e = None →
  ∃ fs', save_excel e appts fs = (fs', Ok ())
    ∧ load_excel fs' = Ok (map (fmap written) appts)
    ∧ (Forall (λ a : dict, ∀ k, a !! k ≠ Some (VStr "")) appts →
         load_excel fs' = Ok appts).
Proof.
  intros Hs Hf Htmp.
  destruct (save_excel_success e appts fs _ (sheet_rows_storable _ Hs) Hf Htmp)
    as (fs' & Hsave & Hledger).
  exists fs'. split; [done|].
  assert (Hload : load_excel fs' = Ok (map (fmap written) appts)).
  { unfold load_excel. rewrite Hledger, map_cons. rewrite skipn_cons, drop_0.
    by rewrite load_rows_storable. }
  split; [done|]. intros Hne. rewrite Hload. f_equal.
  clear -Hne. induction Hne as [|a appts Ha _ IH]; [done|].
  cbn [map]. by rewrite IH, written_fmap_id.
Qed.

(** The record that a POST creates is storable when the request's texts
    and the strings drawn for it are. *)
Lemma new_appt_storable (e : env) (name address reason dt : string) :
  uuid4 e ≠ "" →
  Forall cell_text [uuid4 e; name; address; reason; dt; utcnow e] →
  storable (new_appt e name address reason dt).
Proof.
  intros Hid Hcells.
  repeat (apply Forall_cons in Hcells as [? Hcells]).
  unfold new_appt. split; [|split].
  - intros k. unfold HEADERS.
    rewrite !lookup_insert_is_Some', lookup_empty, !elem_of_cons, elem_of_nil.
    pose proof (is_Some_None (A:=value)). naive_solver.
  - exists (uuid4 e). by simplify_map_eq.
  - intros k s Hk. rewrite !lookup_insert_Some, lookup_empty in Hk.
    naive_solver.
Qed.

End properties.

(** ** Further properties *)

Lemma filter_same_length {A} (P : A → Prop) `{∀ a, Decision (P a)} (l : list A) :
  length (filter P l) = length l → filter P l = l.
Proof.
  induction l as [|a l IH]; [done|].
  rewrite filter_cons. destruct (decide (P a)); cbn [length].
  - intros [= Hl]. f_equal. by apply IH.
  - intros Hl. pose proof (length_filter P l). lia.
Qed.

Lemma length_omap_le {A B} (f : A → option B) (l : list A) :
  length (omap f l) ≤ length l.
Proof.
  induction l as [|a l IH]; [done|]. cbn. destruct (f a); cbn; lia.
Qed.

Lemma for_each_app_raise {A B} (f : A → result B) (l k : list A) (x : exn) :
  for_each f l = Raise x → for_each f (l ++ k) = Raise x.
Proof.
  induction l as [|a l IH]; cbn [for_each app]; [done|].
  destruct (f a); cbn; [|done].
  destruct (for_each f l); cbn; [done|]. intros Hx. by rewrite (IH Hx).
Qed.

Lemma for_each_app_ok {A B} (f : A → result B) (l k : list A) (l' : list B) :
  for_each f l = Ok l' →
  for_each f (l ++ k) = (k' ← for_each f k; Ok (l' ++ k')).
Proof.
  revert l'. induction l as [|a l IH]; intros l'; cbn [for_each app].
  - intros [= <-]. by destruct (for_each f k).
  - destruct (f a); cbn; [|done].
    destruct (for_each f l) as [m|]; cbn; [|done]. intros [= <-].
    rewrite (IH m eq_refl). by destruct (for_each f k).
Qed.

(** *** Rows of the ledger *)

Lemma list_to_map_zip_keys (row : list value) (k : string) :
  is_Some ((list_to_map (zip HEADERS row) : dict) !! k) → k ∈ HEADERS.
Proof.
  intros [u Hu]. apply elem_of_list_to_map_2 in Hu.
  by apply elem_of_zip_l in Hu.
Qed.

Lemma load_row_id (row : list value) (a : dict) :
  load_row row = Some a →
  (∃ v, a !! "id" = Some v ∧ truthy v = true)
  ∧ ∀ k, is_Some (a !! k) → k ∈ HEADERS.
Proof.
  unfold load_row. destruct row as [|v rest]; [done|].
  destruct (truthy v) eqn:Hv; [|done]. intros [= <-]. split.
  - exists v. split; [|done]. unfold HEADERS. cbn [zip zip_with list_to_map foldr].
    apply lookup_insert_eq.
  - intros k Hk. exact (list_to_map_zip_keys (v :: rest) k Hk).
Qed.

Lemma check_string_illegal (s : string) :
  existsb illegal_char (list_ascii_of_string (String.substring 0 32767 s)) = true →
  check_string s = Raise IllegalCharacterError.
Proof. unfold check_string. cbn zeta. by intros ->. Qed.

Lemma ws_append_illegal (row : list value) :
  Exists (λ v, ∃ s, v = VStr s
     ∧ existsb illegal_char (list_ascii_of_string (String.substring 0 32767 s)) = true)
    row →
  ws_append row = Raise IllegalCharacterError.
Proof.
  unfold ws_append. induction row as [|v row IH]; intros Hex.
  - by apply Exists_nil in Hex.
  - cbn [for_each]. apply Exists_cons in Hex as [(s & -> & Hs)|Hex].
    + cbn [bind_value]. by rewrite (check_string_illegal s Hs).
    + rewrite (IH Hex). destruct v as [|s]; cbn; [done|].
      unfold check_string. cbn zeta. by destruct (existsb _ _).
Qed.

Lemma written_storable (a : dict) :
  storable a →
  storable (written <$> a) ∧ ∀ k, (written <$> a) !! k ≠ Some (VStr "").
Proof.
  intros (Hkeys & (s & Hid & Hs) & Htext).
  assert (Hw : ∀ k t, (written <$> a) !! k = Some (VStr t) →
                      a !! k = Some (VStr t) ∧ t ≠ "").
  { intros k t. rewrite lookup_fmap.
    destruct (a !! k) as [[|[|c u]]|]; cbn; try done.
    intros [= <-]. done. }
  split; [split; [|split]|].
  - intros k. rewrite lookup_fmap, <- Hkeys.
    destruct (a !! k); cbn; [|done]. split; intros _; by eexists.
  - exists s. split; [|done]. rewrite lookup_fmap, Hid. cbn.
    by destruct s.
  - intros k t Hk. apply Hw in Hk as [Hk _]. eauto.
  - intros k Hk. by apply Hw in Hk as [_ ?].
Qed.

(** *** str.strip() on whitespace *)

Lemma lstrip_chars_nil (l : list ascii) :
  lstrip_chars l = [] ↔ all_space l.
Proof.
  unfold all_space. induction l as [|c l IH]; cbn [lstrip_chars].
  - split; [constructor | done].
  - destruct (isspace c) eqn:Hc.
    + rewrite IH, Forall_cons. tauto.
    + split; [done|]. intros [Hc' _]%Forall_cons. congruence.
Qed.

Lemma strip_empty_iff (s : string) :
  strip s = "" ↔ all_space (list_ascii_of_string s).
Proof.
  unfold strip. split.
  - intros Hs. apply (f_equal list_ascii_of_string) in Hs.
    rewrite list_ascii_of_string_of_list_ascii in Hs. cbn in Hs.
    destruct (strip_chars_spec (list_ascii_of_string s))
      as (pre & post & Hl & Hpre & Hpost & _).
    rewrite Hs in Hl. rewrite Hl. unfold all_space in *.
    apply Forall_app. split; [done|]. by apply Forall_app.
  - intros Hs. apply lstrip_chars_nil in Hs. unfold strip_chars. by rewrite Hs.
Qed.

(** *** sorted() on keys that are not text *)

Lemma sort_keyed_raise_type {A} (l : list (value * A)) (x : exn) :
  sort_keyed l = Raise x → x = TypeError.
Proof.
  assert (Hins : ∀ (p : value * A) s, sort_insert p s = Raise x → x = TypeError).
  { intros p s. induction s as [|q s IH]; cbn [sort_insert]; [done|].
    destruct (fst q) as [|a], (fst p) as [|b]; cbn; try by intros [= <-].
    destruct (negb _); [|done].
    destruct (sort_insert p s); cbn; [done|]. intros [= <-]. by apply IH. }
  induction l as [|p l IH]; cbn [sort_keyed]; [done|].
  destruct (sort_keyed l) as [s|y]; cbn.
  - apply Hins.
  - intros [= <-]. by apply IH.
Qed.

Lemma sort_insert_head_text {A} (p q : value * A) (s s' : list (value * A)) :
  sort_insert p (q :: s) = Ok s' → fst p ≠ VNone ∧ fst q ≠ VNone.
Proof.
  cbn [sort_insert]. by destruct (fst q), (fst p).
Qed.

Lemma sort_keyed_ok_text {A} (l s : list (value * A)) :
  sort_keyed l = Ok s → 2 ≤ length l → Forall (λ p, fst p ≠ VNone) l.
Proof.
  revert s. induction l as [|p l IH]; intros s; cbn [sort_keyed length]; [lia|].
  destruct (sort_keyed l) as [s'|] eqn:Hs'; cbn; [|done].
  intros Hins Hlen. pose proof (sort_keyed_perm _ _ Hs') as Hperm.
  destruct s' as [|q s'].
  { apply Permutation_nil_l in Hperm. subst l. cbn in Hlen. lia. }
  apply sort_insert_head_text in Hins as [Hp Hq]. constructor; [done|].
  destruct l as [|p1 [|p2 l]].
  - by apply Permutation_nil_r in Hperm.
  - apply Permutation_singleton_r in Hperm. injection Hperm as -> ->.
    by constructor.
  - eapply IH; [done|]. cbn. lia.
Qed.

Lemma for_each_keyed_values (l : list dict) :
  Forall (λ a : dict, is_Some (a !! "datetime")) l →
  for_each keyed_by_datetime l
  = Ok (map (λ a : dict, (default VNone (a !! "datetime"), a)) l).
Proof.
  induction 1 as [|a l [v Hv] _ IH]; [done|].
  cbn [for_each map]. rewrite IH.
  unfold keyed_by_datetime, getitem. by rewrite Hv.
Qed.

(** *** escapeHtml *)

Lemma string_app_assoc (a b c : string) : (a +:+ b) +:+ c = a +:+ (b +:+ c).
Proof.
  induction a as [|x a IH]; [done|].
  change (String x ((a +:+ b) +:+ c) = String x (a +:+ (b +:+ c))).
  by rewrite IH.
Qed.

Lemma list_ascii_of_string_app (s t : string) :
  list_ascii_of_string (s +:+ t) = list_ascii_of_string s ++ list_ascii_of_string t.
Proof. induction s as [|c s IH]; [done|]. cbn. by rewrite <- IH. Qed.

Lemma replaceAll_app (c : ascii) (r a b : string) :
  replaceAll c r (a +:+ b) = replaceAll c r a +:+ replaceAll c r b.
Proof.
  induction a as [|x a IH]; [done|].
  change (String x a +:+ b) with (String x (a +:+ b)). cbn [replaceAll].
  destruct (decide (x = c)); rewrite IH; [|done]. by rewrite string_app_assoc.
Qed.

Lemma replaceAll_entities (s : string) :
  replaceAll ">" "&gt;" (replaceAll "<" "&lt;" (replaceAll "&" "&amp;" s))
  = entities s.
Proof.
  induction s as [|c s IH]; [done|]. cbn [replaceAll entities]. unfold entity.
  destruct (decide (c = "&"%char)) as [->|Hamp].
  { by rewrite !replaceAll_app, IH. }
  cbn [replaceAll]. destruct (decide (c = "<"%char)) as [->|Hlt].
  { by rewrite !replaceAll_app, IH. }
  cbn [replaceAll]. destruct (decide (c = ">"%char)) as [->|Hgt].
  { by rewrite IH. }
  by rewrite IH.
Qed.

Lemma entities_no_markup (s : string) :
  Forall (λ c, c ≠ "<"%char ∧ c ≠ ">"%char) (list_ascii_of_string (entities s)).
Proof.
  induction s as [|c s IH]; [constructor|]. cbn [entities].
  rewrite list_ascii_of_string_app. apply Forall_app. split; [|done].
  unfold entity. repeat case_decide; repeat constructor; done.
Qed.

(** The page's [escapeHtml] gives the text with every [&], [<] and [>]
    replaced by its entity, as one pass over the characters would (the
    later replacements do not touch the entities the earlier ones have
    written); [null] and the empty text give the empty text; the result
    holds neither [<] nor [>]. *)
Theorem escapeHtml_entities (v : value) :
  escapeHtml v = entities (match v with VNone => "" | VStr s => s end)
  ∧ Forall (λ c, c ≠ "<"%char ∧ c ≠ ">"%char)
      (list_ascii_of_string (escapeHtml v)).
Proof.
  assert (Heq : escapeHtml v
                = entities (match v with VNone => "" | VStr s => s end)).
  { destruct v as [|s]; [done|]. cbn [escapeHtml].
    destruct (decide (s = "")) as [->|_]; [done|]. apply replaceAll_entities. }
  split; [done|]. rewrite Heq. apply entities_no_markup.
Qed.

Section more_properties.

Context `{Host}.

(** *** load_excel *)

Lemma load_excel_has_id (fs : filesystem) (l : list dict) :
  load_excel fs = Ok l →
  Forall (λ a : dict, (∃ v, a !! "id" = Some v ∧ truthy v = true)
                      ∧ ∀ k, is_Some (a !! k) → k ∈ HEADERS) l.
Proof.
  unfold load_excel. destruct (fs !! excel_path) as [[|rows]|].
  - done.
  - intros [= <-]. apply Forall_forall. intros a Ha.
    apply list_elem_of_omap in Ha as (row & _ & Hrow).
    by apply load_row_id in Hrow.
  - intros [= <-]. constructor.
Qed.

(** [load_excel] gives the empty collection when there is no ledger file
    and raises on a file that is no workbook; on a workbook it gives at
    most one record for each row under the header row, each with a
    non-empty id and no key outside [HEADERS]. *)
Theorem load_excel_records (fs : filesystem) :
  match fs !! excel_path with
  | None => load_excel fs = Ok []
  | Some Blank => load_excel fs = Raise BadZipFile
  | Some (Workbook rows) =>
      ∃ l, load_excel fs = Ok l
        ∧ length l ≤ length rows - 1
        ∧ Forall (λ a : dict,
                    (∃ v, a !! "id" = Some v ∧ truthy v = true)
                    ∧ ∀ k, is_Some (a !! k) → k ∈ HEADERS) l
  end.
Proof.
  destruct (fs !! excel_path) as [[|rows]|] eqn:Hfs;
    try (unfold load_excel; by rewrite Hfs).
  exists (omap load_row (drop 1 rows)). split; [|split].
  - unfold load_excel. by rewrite Hfs.
  - etrans; [apply length_omap_le|]. rewrite length_drop. lia.
  - apply load_excel_has_id with fs. unfold load_excel. by rewrite Hfs.
Qed.

(** *** save_excel *)

(** A [save_excel] touches two paths only, the ledger and its temporary
    file; when it returns, the ledger holds the sheet of the collection and
    the temporary file is gone; when it raises, the ledger holds what it
    held. *)
Theorem save_two_phase (e : env) (appts : list dict) (fs fs' : filesystem)
    (r : result unit) :
  save_excel e appts fs = (fs', r) →
  (∀ p, p ≠ excel_path → p ≠ temp_path e → fs' !! p = fs !! p)
  ∧ match r with
    | Ok _ =>
        ∃ rows, sheet_rows appts = Ok rows
          ∧ fs' !! excel_path = Some (Workbook (map (map written) rows))
          ∧ fs' !! temp_path e = None
    | Raise _ => fs' !! excel_path = fs !! excel_path
    end.
Proof.
  intros Hs. destruct (save_excel_spec _ _ _ _ _ Hs) as [Hother Hr].
  split; [exact Hother|]. destruct r; [|exact Hr].
  destruct Hr as (rows & ? & ? & ? & _). exists rows. repeat split; assumption.
Qed.

(** [save_excel] has no cleanup: when [wb.save] or [os.replace] fails, the
    call raises [OSError] and the temporary file stays, empty after a
    failed [wb.save], holding the new sheet after a failed [os.replace]. *)
Theorem failed_save_leaves_temp_file (e : env) (appts : list dict)
    (fs : filesystem) (rows : list (list value)) :
  sheet_rows appts = Ok rows →
  fs !! temp_path e = None →
  io_fault e = Some FailSave ∨ io_fault e = Some FailReplace →
  snd (save_excel e appts fs) = Raise OSError
  ∧ fst (save_excel e appts fs) !! temp_path e
    = Some (if decide (io_fault e = Some FailSave) then Blank
            else Workbook (map (map written) rows)).
Proof.
  intros Hrows Htmp Hf.
  unfold save_excel, mkstemp, wb_save, os_replace. rewrite Hrows, Htmp.
  destruct Hf as [Hf|Hf]; rewrite Hf.
  - rewrite decide_False by done. rewrite !decide_True by done.
    cbn [fst snd]. split; [reflexivity|]. apply lookup_insert_eq.
  - rewrite !(decide_False (P:=Some FailReplace = Some FailMkstemp)) by done.
    rewrite !(decide_False (P:=Some FailReplace = Some FailSave)) by done.
    rewrite decide_True by done. cbn [fst snd].
    split; [reflexivity|]. apply lookup_insert_eq.
Qed.

Lemma save_excel_ok_sync (e : env) (appts : list dict) (fs fs' : filesystem) :
  save_excel e appts fs = (fs', Ok ()) →
  ledger_in_sync (mk_world appts fs').
Proof.
  intros Hs. destruct (save_excel_spec _ _ _ _ _ Hs) as [_ (rows & Hr & Hl & _)].
  exists rows. split; assumption.
Qed.

Lemma save_load_storable (e : env) (appts : list dict) (fs fs' : filesystem) :
  Forall storable appts →
  save_excel e appts fs = (fs', Ok ()) →
  load_excel fs' = Ok (map (fmap written) appts).
Proof.
  intros Hs Hsave.
  destruct (save_excel_spec _ _ _ _ _ Hsave) as [_ (rows & Hrows & Hl & _)].
  rewrite (sheet_rows_storable _ Hs) in Hrows. injection Hrows as <-.
  unfold load_excel. rewrite Hl, map_cons, skipn_cons, drop_0.
  by rewrite load_rows_storable.
Qed.

(** *** Every request *)

(** After a request answered 201, 200 to a DELETE, or with the ledger file,
    the ledger file holds the sheet of the collection as it is then. *)
Theorem successful_mutation_syncs_ledger (e : env) (r : request) (w w' : world)
    (resp : response) :
  handle e r w = (w', Ok resp) →
  saved_response resp = true →
  ledger_in_sync w'.
Proof.
  destruct r as [|data|data|]; cbn [handle].
  - unfold api_GET. destruct (sorted_by_datetime _); cbn; [|done].
    by intros [= <- <-].
  - unfold api_POST.
    destruct (post_fields data) as [[[[name address] reason] dt]|]; [|done].
    destruct (_ || _); [by intros [= <- <-]|].
    destruct (datetime_fromisoformat _); [|by intros [= <- <-]].
    destruct (count_in_hour _ _); [|done].
    destruct (_ <=? _)%nat; [by intros [= <- <-]|].
    destruct (save_excel e _ (disk w)) as [fs [[]|x]] eqn:Hs; cbn; [|done].
    intros [= <- <-] _. by eapply save_excel_ok_sync.
  - unfold api_DELETE.
    destruct (without_id _ _) as [kept|]; [|done].
    destruct (_ =? _)%nat; [by intros [= <- <-]|].
    destruct (save_excel e _ (disk w)) as [fs [[]|x]] eqn:Hs; cbn; [|done].
    intros [= <- <-] _. by eapply save_excel_ok_sync.
  - unfold download_excel.
    destruct (save_excel e _ (disk w)) as [fs [[]|x]] eqn:Hs; cbn; [|done].
    intros [= <- _] _. by eapply save_excel_ok_sync.
Qed.

(** A download that is answered saves first: the collection is as it was
    and the ledger holds the sheet of the collection; the file sent is the
    one that [send_file] finds under the application root, which is that
    sheet when the application root is the working directory. *)
Theorem download_returns_ledger (e : env) (w w' : world) (resp : response) :
  handle e DOWNLOAD w = (w', Ok resp) →
  appointments w' = appointments w
  ∧ ∃ rows, sheet_rows (appointments w) = Ok rows
      ∧ disk w' !! excel_path = Some (Workbook (map (map written) rows))
      ∧ (∃ f, disk w' !! sent_path = Some f ∧ resp = RFile EXCEL_FILE f)
      ∧ (root_path = cwd →
           resp = RFile EXCEL_FILE (Workbook (map (map written) rows))).
Proof.
  cbn [handle]. unfold download_excel.
  destruct (save_excel e _ (disk w)) as [fs [[]|x]] eqn:Hs; cbn; [|done].
  destruct (save_excel_spec _ _ _ _ _ Hs) as [_ (rows & Hr & Hl & _)].
  destruct (fs !! sent_path) as [f|] eqn:Hf; [|done].
  intros [= <- <-]. split; [reflexivity|]. exists rows.
  split; [exact Hr|]. split; [exact Hl|].
  split; [exists f; split; [exact Hf | reflexivity]|].
  intros Hroot. unfold sent_path in Hf. rewrite Hroot in Hf.
  fold excel_path in Hf. congruence.
Qed.

(** A request answered with an error status (400, 404, 409) leaves the
    collection and every file as they were. *)
Theorem error_response_leaves_world (e : env) (r : request) (w : world)
    (status : nat) (msg : string) :
  snd (handle e r w) = Ok (RError status msg) →
  fst (handle e r w) = w.
Proof.
  destruct r as [|data|data|]; cbn [handle].
  - done.
  - unfold api_POST.
    destruct (post_fields data) as [[[[name address] reason] dt]|]; [|done].
    destruct (_ || _); [done|].
    destruct (datetime_fromisoformat _); [|done].
    destruct (count_in_hour _ _); [|done].
    destruct (_ <=? _)%nat; [done|].
    by destruct (save_excel e _ (disk w)) as [fs [[]|x]].
  - unfold api_DELETE.
    destruct (without_id _ _) as [kept|] eqn:Hk; [|done].
    destruct (Nat.eqb_spec (length kept) (length (appointments w))) as [Hlen|Hlen].
    + intros _. cbn [fst]. apply without_id_filter in Hk as [-> _].
      rewrite (filter_same_length _ _ Hlen). by destruct w.
    + by destruct (save_excel e _ (disk w)) as [fs [[]|x]].
  - unfold download_excel.
    destruct (save_excel e _ (disk w)) as [fs [[]|x]]; cbn; [|done].
    by destruct (fs !! sent_path).
Qed.

(** A request never reorders the collection and never alters a record it
    keeps: afterwards the collection is the old one with some records
    left out, or, for a POST, the old one with one record, which carries
    the request's id, appended at the end. *)
Theorem handle_keeps_order (e : env) (r : request) (w : world) :
  appointments (fst (handle e r w)) `sublist_of` appointments w
  ∨ ∃ data a, r = POST data
      ∧ a !! "id" = Some (VStr (uuid4 e))
      ∧ appointments (fst (handle e r w)) = appointments w ++ [a].
Proof.
  destruct r as [|data|data|]; cbn [handle].
  - by left.
  - unfold api_POST.
    destruct (post_fields data) as [[[[name address] reason] dt]|]; [|by left].
    destruct (_ || _); [by left|].
    destruct (datetime_fromisoformat _); [|by left].
    destruct (count_in_hour _ _); [|by left].
    destruct (_ <=? _)%nat; [by left|].
    destruct (save_excel e _ (disk w)). cbn [fst appointments].
    right. exists data, (new_appt e name address reason dt).
    split; [done|]. split; [|done]. unfold new_appt. apply lookup_insert_eq.
  - left. unfold api_DELETE.
    destruct (without_id _ _) as [kept|] eqn:Hk; [|done].
    apply without_id_filter in Hk as [-> _].
    assert (filter (λ a : dict, a !! "id" ≠ Some (default VNone (data !! "id")))
              (appointments w) `sublist_of` appointments w) by apply sublist_filter.
    destruct (_ =? _)%nat; [done|]. by destruct (save_excel e _ (disk w)).
  - left. unfold download_excel. by destruct (save_excel e _ (disk w)).
Qed.

(** Ids stay unique: when no two records of the collection share an id and
    the id drawn for the request is not in use, no two records share an id
    after the request, whatever the request and whether or not its save
    succeeds. *)
Theorem handle_keeps_ids_unique (e : env) (r : request) (w : world) :
  NoDup (ids (appointments w)) →
  Some (VStr (uuid4 e)) ∉ ids (appointments w) →
  NoDup (ids (appointments (fst (handle e r w)))).
Proof.
  intros Hnd Hfresh. destruct r as [|data|data|]; cbn [handle].
  - done.
  - unfold api_POST.
    destruct (post_fields data) as [[[[name address] reason] dt]|]; [|done].
    destruct (_ || _); [done|].
    destruct (datetime_fromisoformat _); [|done].
    destruct (count_in_hour _ _); [|done].
    destruct (_ <=? _)%nat; [done|].
    destruct (save_excel e _ (disk w)). cbn [fst appointments].
    unfold ids. rewrite fmap_app. apply NoDup_app. split; [done|]. split.
    + intros v Hv Hin. cbn in Hin. apply list_elem_of_singleton in Hin.
      unfold new_appt in Hin. rewrite lookup_insert_eq in Hin. by subst v.
    + apply NoDup_singleton.
  - unfold api_DELETE.
    destruct (without_id _ _) as [kept|] eqn:Hk; [|done].
    apply without_id_filter in Hk as [-> _].
    assert (NoDup (ids (filter (λ a : dict,
              a !! "id" ≠ Some (default VNone (data !! "id"))) (appointments w)))).
    { assert (Hsub : ids (filter (λ a : dict,
                a !! "id" ≠ Some (default VNone (data !! "id"))) (appointments w))
              `sublist_of` ids (appointments w)).
      { unfold ids. apply fmap_sublist, sublist_filter. }
      by eapply sublist_NoDup. }
    destruct (_ =? _)%nat; [done|]. by destruct (save_excel e _ (disk w)).
  - unfold download_excel. by destruct (save_excel e _ (disk w)).
Qed.

(** *** POST *)

(** A POST whose name, address, reason or datetime is JSON [null] raises
    [AttributeError] ([None] has no [strip]) and changes nothing: the
    default of [data.get] applies to an absent key only. *)
Theorem post_null_field_raises (e : env) (data : dict) (w : world) (k : string) :
  k ∈ ["name"; "address"; "reason"; "datetime"] →
  data !! k = Some VNone →
  handle e (POST data) w = (w, Raise AttributeError).
Proof.
  intros Hk Hnull. cbn [handle]. unfold api_POST.
  assert (post_fields data = Raise AttributeError) as ->; [|done].
  unfold post_fields, get_strip.
  repeat (apply elem_of_cons in Hk as [->|Hk];
    [ rewrite Hnull; cbn;
      repeat match goal with
      | |- context [data !! ?j] => destruct (data !! j) as [[|?]|]; cbn; try done
      end; done |]).
  by apply elem_of_nil in Hk.
Qed.

(** A name made of whitespace only counts as no name: the POST is answered
    400 "Name and datetime are required." and changes nothing, whatever
    its datetime. *)
Theorem whitespace_name_is_missing (e : env) (data : dict) (w : world) :
  text_body data →
  all_space (list_ascii_of_string (field_text data "name")) →
  handle e (POST data) w
  = (w, Ok (RError 400 "Name and datetime are required.")).
Proof.
  intros Ht Hsp. cbn [handle].
  rewrite (api_POST_unfold _ _ _ _ _ _ _ (post_fields_text _ Ht)).
  apply strip_empty_iff in Hsp. rewrite bool_decide_true; [done|by left].
Qed.

(** A POST with text fields is answered 409 exactly when its trimmed name
    and datetime are not empty, the datetime parses, and the hour of the
    datetime already holds [MAX_PER_HOUR] records or more. *)
Theorem hour_full_iff (e : env) (data : dict) (w : world) :
  text_body data →
  let name := strip (field_text data "name") in
  let dt := strip (field_text data "datetime") in
  (∃ msg, snd (handle e (POST data) w) = Ok (RError 409 msg))
  ↔ name ≠ "" ∧ dt ≠ ""
    ∧ ∃ d, fromisoformat dt = Some d
        ∧ MAX_PER_HOUR ≤ bucket_count (bucket_of d) (appointments w).
Proof.
  intros Ht. cbn zeta. cbn [handle].
  rewrite (api_POST_unfold _ _ _ _ _ _ _ (post_fields_text _ Ht)).
  case_bool_decide as Hreq.
  { cbn [snd]. split; [by intros [msg [=]] | tauto]. }
  destruct (fromisoformat _) as [d|] eqn:Hdt.
  - case_bool_decide as Hfull; cbn [snd].
    + split; [intros _|by eexists]. repeat split; [tauto..|]. by exists d.
    + cbn zeta. cbn [snd]. split.
      * intros [msg Hm]. by destruct (snd (save_excel e _ (disk w))).
      * intros (_ & _ & d' & [= <-] & ?). done.
  - cbn [snd]. split; [by intros [msg [=]]|]. by intros (_ & _ & d & [=] & _).
Qed.

Lemma post_valid_unfold (e : env) (data : dict) (w : world) (d : datetime) :
  text_body data →
  strip (field_text data "name") ≠ "" →
  strip (field_text data "datetime") ≠ "" →
  fromisoformat (strip (field_text data "datetime")) = Some d →
  bucket_count (bucket_of d) (appointments w) < MAX_PER_HOUR →
  let a := new_appt e (strip (field_text data "name"))
             (strip (field_text data "address"))
             (strip (field_text data "reason"))
             (strip (field_text data "datetime")) in
  handle e (POST data) w
  = (mk_world (appointments w ++ [a])
       (fst (save_excel e (appointments w ++ [a]) (disk w))),
     _ ← snd (save_excel e (appointments w ++ [a]) (disk w)); Ok (RCreated a)).
Proof.
  intros Ht Hn Hd Hp Hfree a. cbn [handle].
  rewrite (api_POST_unfold _ _ _ _ _ _ _ (post_fields_text _ Ht)).
  rewrite bool_decide_false by tauto. rewrite Hp.
  by rewrite bool_decide_false by lia.
Qed.

(** A valid POST into an hour with room is answered 201, and leaves the
    ledger holding the sheet of the new collection, when the records of
    the collection are storable, the texts of the new record are ones a
    cell takes, no I/O fault occurs and the temporary name is free. *)
Theorem post_accepted (e : env) (data : dict) (w : world) (d : datetime) :
  text_body data →
  let name := strip (field_text data "name") in
  let address := strip (field_text data "address") in
  let reason := strip (field_text data "reason") in
  let dt := strip (field_text data "datetime") in
  name ≠ "" → dt ≠ "" →
  fromisoformat dt = Some d →
  bucket_count (bucket_of d) (appointments w) < MAX_PER_HOUR →
  Forall storable (appointments w) →
  uuid4 e ≠ "" →
  Forall cell_text [uuid4 e; name; address; reason; dt; utcnow e] →
  io_fault e = None →
  disk w !! temp_path e = None →
  ∃ fs', handle e (POST data) w
         = (mk_world (appointments w ++ [new_appt e name address reason dt]) fs',
            Ok (RCreated (new_appt e name address reason dt)))
    ∧ ledger_in_sync
        (mk_world (appointments w ++ [new_appt e name address reason dt]) fs').
Proof.
  intros Ht name address reason dt Hn Hd Hp Hfree Hs Hid Hcells Hf Htmp.
  assert (Hs' : Forall storable
                  (appointments w ++ [new_appt e name address reason dt])).
  { apply Forall_app. split; [done|]. apply Forall_singleton.
    by apply new_appt_storable. }
  destruct (save_excel_success e _ (disk w) _ (sheet_rows_storable _ Hs') Hf Htmp)
    as (fs' & Hsave & Hl).
  exists fs'. split.
  - rewrite (post_valid_unfold e data w d Ht Hn Hd Hp Hfree). cbn zeta.
    fold name address reason dt. by rewrite Hsave.
  - eexists. split; [exact (sheet_rows_storable _ Hs') | exact Hl].
Qed.

(** After a POST answered 201, [count_in_hour] of any datetime that parses
    is what the bucket held before, plus one when the datetime falls in
    the hour of the new record. *)
Theorem post_then_count (e : env) (data : dict) (w w' : world) (a : dict) :
  handle e (POST data) w = (w', Ok (RCreated a)) →
  ∃ d, fromisoformat (strip (field_text data "datetime")) = Some d
    ∧ ∀ s d', fromisoformat s = Some d' →
        count_in_hour (VStr s) (appointments w')
        = Ok (bucket_count (bucket_of d') (appointments w)
              + (if decide (bucket_of d = bucket_of d') then 1 else 0)).
Proof.
  cbn [handle]. intros Hpost.
  destruct (post_fields data) as [[[[name address] reason] dt]|x] eqn:Hp.
  2:{ unfold api_POST in Hpost. by rewrite Hp in Hpost. }
  rewrite (api_POST_unfold _ _ _ _ _ _ _ Hp) in Hpost.
  apply post_fields_inv in Hp as (Ht & -> & -> & -> & ->).
  case_bool_decide; [done|].
  destruct (fromisoformat _) as [d|] eqn:Hd; [|done].
  case_bool_decide; [done|]. cbn zeta in Hpost.
  destruct (snd (save_excel e _ (disk w))); [|done].
  cbn in Hpost. injection Hpost as <- <-. exists d. split; [done|].
  intros s d' Hs. cbn [appointments].
  rewrite (count_in_hour_parsed s d' _ Hs), bucket_count_snoc.
  rewrite (new_appt_bucket _ _ _ _ _ d Hd). do 2 f_equal.
  destruct (decide (bucket_of d = bucket_of d')) as [Hb|Hb].
  - rewrite Hb. by rewrite decide_True.
  - rewrite decide_False; [done|]. intros Heq. apply Hb.
    exact (f_equal (default (bucket_of d)) Heq).
Qed.

Lemma new_appt_row (e : env) (name address reason dt : string) :
  for_each (getitem (new_appt e name address reason dt)) HEADERS
  = Ok [VStr (uuid4 e); VStr name; VStr address; VStr reason; VStr dt;
        VStr (utcnow e)].
Proof.
  unfold HEADERS, getitem, new_appt. cbn [for_each].
  rewrite lookup_insert_eq.
  repeat (rewrite lookup_insert_ne by done; rewrite ?lookup_insert_eq).
  done.
Qed.

(** A valid POST whose trimmed name holds a control character that a
    cell refuses raises [IllegalCharacterError] while the sheet is built:
    no file is touched, and the record stays in the collection. *)
Theorem post_illegal_character (e : env) (data : dict) (w : world)
    (d : datetime) :
  text_body data →
  let name := strip (field_text data "name") in
  let dt := strip (field_text data "datetime") in
  name ≠ "" → dt ≠ "" →
  fromisoformat dt = Some d →
  bucket_count (bucket_of d) (appointments w) < MAX_PER_HOUR →
  Forall storable (appointments w) →
  existsb illegal_char
    (list_ascii_of_string (String.substring 0 32767 name)) = true →
  ∃ a, a !! "name" = Some (VStr name)
    ∧ handle e (POST data) w
      = (mk_world (appointments w ++ [a]) (disk w), Raise IllegalCharacterError).
Proof.
  intros Ht name dt Hn Hd Hp Hfree Hs Hill. eexists. split; [|
    rewrite (post_valid_unfold e data w d Ht Hn Hd Hp Hfree); cbn zeta;
    fold name dt].
  2:{ assert (Hrows : sheet_rows (appointments w ++
          [new_appt e name (strip (field_text data "address"))
             (strip (field_text data "reason")) dt])
          = Raise IllegalCharacterError).
      { unfold sheet_rows. rewrite ws_append_headers. cbn [mbind result_bind].
        assert (Hold : for_each
                  (λ a : dict, vs ← for_each (getitem a) HEADERS; ws_append vs)
                  (appointments w) = Ok (map row_of (appointments w))).
        { clear -Hs. induction Hs as [|a appts Ha _ IH]; [done|].
          cbn [for_each map]. destruct (storable_row a Ha) as [-> Hrow].
          cbn [mbind result_bind]. by rewrite Hrow, IH. }
        rewrite (for_each_app_ok _ _ _ _ Hold). cbn [for_each].
        rewrite new_appt_row. cbn [mbind result_bind].
        rewrite ws_append_illegal; [done|].
        apply Exists_cons_tl, Exists_cons_hd. by exists name. }
      unfold save_excel. by rewrite Hrows. }
  unfold new_appt. by simplify_map_eq.
Qed.

(** Once the collection holds a record whose row cannot be built, every
    valid POST into an hour with room appends its record, raises the same
    exception and writes no file. *)
Theorem unwritable_collection_blocks_posts (e : env) (data : dict) (w : world)
    (d : datetime) (x : exn) :
  sheet_rows (appointments w) = Raise x →
  text_body data →
  strip (field_text data "name") ≠ "" →
  strip (field_text data "datetime") ≠ "" →
  fromisoformat (strip (field_text data "datetime")) = Some d →
  bucket_count (bucket_of d) (appointments w) < MAX_PER_HOUR →
  ∃ a, handle e (POST data) w
       = (mk_world (appointments w ++ [a]) (disk w), Raise x).
Proof.
  intros Hrows Ht Hn Hd Hp Hfree. eexists.
  rewrite (post_valid_unfold e data w d Ht Hn Hd Hp Hfree). cbn zeta.
  assert (Hsave : ∀ appts, sheet_rows (appointments w ++ appts) = Raise x).
  { intros appts. unfold sheet_rows in *.
    destruct (ws_append (VStr <$> HEADERS)); cbn in *; [|done].
    destruct (for_each _ (appointments w)) eqn:Hfe; cbn in Hrows; [done|].
    injection Hrows as ->. by rewrite (for_each_app_raise _ _ appts _ Hfe). }
  unfold save_excel. by rewrite Hsave.
Qed.

(** *** DELETE *)

Lemma handle_has_id (e : env) (r : request) (w : world) :
  Forall (λ a : dict, is_Some (a !! "id")) (appointments w) →
  Forall (λ a : dict, is_Some (a !! "id")) (appointments (fst (handle e r w))).
Proof.
  intros Hw. destruct r as [|data|data|]; cbn [handle].
  - done.
  - unfold api_POST.
    destruct (post_fields data) as [[[[name address] reason] dt]|]; [|done].
    destruct (_ || _); [done|].
    destruct (datetime_fromisoformat _); [|done].
    destruct (count_in_hour _ _); [|done].
    destruct (_ <=? _)%nat; [done|].
    destruct (save_excel e _ (disk w)). cbn [fst appointments].
    apply Forall_app. split; [done|]. apply Forall_singleton.
    eexists. unfold new_appt. apply lookup_insert_eq.
  - unfold api_DELETE.
    destruct (without_id _ _) as [kept|] eqn:Hk; [|done].
    apply without_id_filter in Hk as [-> _].
    assert (Forall (λ a : dict, is_Some (a !! "id"))
              (filter (λ a : dict, a !! "id" ≠ Some (default VNone (data !! "id")))
                 (appointments w))).
    { rewrite Forall_forall in Hw |- *. intros a Ha.
      apply list_elem_of_filter in Ha as [_ Ha]. by apply Hw. }
    destruct (_ =? _)%nat; [done|]. by destruct (save_excel e _ (disk w)).
  - unfold download_excel. by destruct (save_excel e _ (disk w)).
Qed.

Lemma run_has_id (fs : filesystem) (w : world) (rs : list (env * request)) :
  startup fs = Ok w →
  Forall (λ a : dict, is_Some (a !! "id")) (appointments (run rs w)).
Proof.
  unfold startup. destruct (load_excel fs) as [l|] eqn:Hl; cbn; [|done].
  intros [= <-].
  assert (Hw : Forall (λ a : dict, is_Some (a !! "id"))
                 (appointments (mk_world l fs))).
  { cbn. eapply Forall_impl; [exact (load_excel_has_id fs l Hl)|].
    cbn. intros a [(v & Hv & _) _]. by exists v. }
  revert Hw. generalize (mk_world l fs). clear.
  induction rs as [|[e r] rs IH]; intros w Hw; [done|].
  cbn [run foldl]. apply IH. by apply handle_has_id.
Qed.

(** C6, as amended.  In every state reached from a startup by requests,
    with [kept] the records whose id differs from the one asked for: when
    some record carries that id, the DELETE leaves [kept], which is the
    collection without every record that carries the id (one record fewer
    when a single record carries it) and holds no record with the id; it
    answers 200 when the save succeeds; a later GET lists no record with
    the id, and the same DELETE again is answered 404 and changes nothing.
    When no record carries the id, the DELETE is answered 404
    ["Appointment not found"] and leaves the collection and the files as
    they were. *)
Theorem C6_delete (fs : filesystem) (w0 : world) (rs : list (env * request))
    (e : env) (data : dict) :
  startup fs = Ok w0 →
  let w := run rs w0 in
  let v := default VNone (data !! "id") in
  let kept := filter (λ a, a !! "id" ≠ Some v) (appointments w) in
  (with_id v (appointments w) ≠ [] →
     length kept + length (with_id v (appointments w))
     = length (appointments w)
     ∧ (length (with_id v (appointments w)) = 1 →
          S (length kept) = length (appointments w))
     ∧ with_id v kept = []
     ∧ appointments (fst (handle e (DELETE data) w)) = kept
     ∧ ∀ fs', save_excel e kept (disk w) = (fs', Ok ()) →
         handle e (DELETE data) w = (mk_world kept fs', Ok RDone)
         ∧ (∀ e' s, snd (handle e' GET (mk_world kept fs')) = Ok (RList s) →
              with_id v s = [])
         ∧ (∀ e', handle e' (DELETE data) (mk_world kept fs')
                  = (mk_world kept fs',
                     Ok (RError 404 "Appointment not found"))))
  ∧ (with_id v (appointments w) = [] →
       handle e (DELETE data) w
       = (w, Ok (RError 404 "Appointment not found"))).
Proof.
  intros Hstart w v kept.
  exact (delete_with_ids e data w (run_has_id fs w0 rs Hstart)).
Qed.

(** In every state reached from a startup by requests, a DELETE never
    raises [KeyError] (every record has an id): it is answered 404 with
    nothing changed when no record carries the requested id (also when the
    body has no id), and otherwise drops every record that carries it,
    keeps the others in order and calls [save_excel] on them. *)
Theorem delete_on_reachable (fs : filesystem) (w0 : world)
    (rs : list (env * request)) (e : env) (data : dict) :
  startup fs = Ok w0 →
  let w := run rs w0 in
  let v := default VNone (data !! "id") in
  let kept := filter (λ a : dict, a !! "id" ≠ Some v) (appointments w) in
  length kept + length (with_id v (appointments w)) = length (appointments w)
  ∧ handle e (DELETE data) w
    = if decide (with_id v (appointments w) = [])
      then (w, Ok (RError 404 "Appointment not found"))
      else (mk_world kept (fst (save_excel e kept (disk w))),
            _ ← snd (save_excel e kept (disk w)); Ok RDone).
Proof.
  intros Hstart w v kept.
  pose proof (run_has_id fs w0 rs Hstart) as Hids. fold w in Hids.
  pose proof (length_without_with v (appointments w)) as Hlen. fold kept in Hlen.
  split; [done|]. cbn [handle]. unfold api_DELETE. fold v.
  rewrite (without_id_total v _ Hids). fold kept.
  destruct (decide (with_id v (appointments w) = [])) as [Hnone|Hsome].
  - rewrite Hnone in Hlen. cbn in Hlen. rewrite Nat.add_0_r in Hlen.
    rewrite Hlen, Nat.eqb_refl. unfold kept.
    rewrite (filter_same_length _ _ Hlen). by destruct w.
  - assert (length (with_id v (appointments w)) ≠ 0).
    { by destruct (with_id v (appointments w)). }
    assert ((length kept =? length (appointments w))%nat = false) as ->.
    { apply Nat.eqb_neq. lia. }
    by destruct (save_excel e kept (disk w)).
Qed.

(** *** GET *)

(** A GET raises [TypeError] and changes nothing when the collection
    holds two records or more, each with a ["datetime"] key, and the
    ["datetime"] of one is [None], as a record loaded from a row with an
    empty datetime cell has it: [sorted] cannot compare [None]. *)
Theorem get_raises_on_blank_datetime (e : env) (w : world) :
  Forall (λ a : dict, is_Some (a !! "datetime")) (appointments w) →
  2 ≤ length (appointments w) →
  Exists (λ a : dict, a !! "datetime" = Some VNone) (appointments w) →
  handle e GET w = (w, Raise TypeError).
Proof.
  intros Hkeys Hlen Hblank. cbn [handle]. unfold api_GET, sorted_by_datetime.
  rewrite (for_each_keyed_values _ Hkeys). cbn [mbind result_bind].
  set (keyed := map _ (appointments w)).
  destruct (sort_keyed keyed) as [s|x] eqn:Hs; cbn.
  - exfalso. apply sort_keyed_ok_text in Hs.
    + apply Exists_exists in Hblank as (a & Ha & Hnone).
      rewrite Forall_forall in Hs.
      apply (Hs (default VNone (a !! "datetime"), a)).
      * unfold keyed. apply list_elem_of_In, in_map_iff.
        exists a. split; [done|]. by apply list_elem_of_In.
      * cbn. by rewrite Hnone.
    + unfold keyed. by rewrite length_map.
  - by rewrite (sort_keyed_raise_type _ _ Hs).
Qed.

(** Started on any collection whose records all hold a text datetime (a
    ledger without an empty datetime cell gives one), a GET after any
    requests succeeds, changes nothing and lists the collection in
    ascending order of the datetime text, equal datetimes in collection
    order. *)
Theorem get_sorted_when_text (w0 : world) (rs : list (env * request)) (e : env) :
  Forall (has_text "datetime") (appointments w0) →
  let w := run rs w0 in
  ∃ s, handle e GET w = (w, Ok (RList s))
    ∧ stable_sorted_by (λ a, field_text a "datetime") (appointments w) s.
Proof.
  intros Hw0 w.
  destruct (sorted_by_datetime_ok (appointments w)) as (s & Hs & Hsorted).
  { by apply run_text_datetime. }
  exists s. split; [|done]. cbn [handle]. unfold api_GET. by rewrite Hs.
Qed.

(** *** A restart *)

Lemma bucket_of_appt_written (a : dict) (b : bucket) :
  bucket_of_appt (written <$> a) = Some b → bucket_of_appt a = Some b.
Proof.
  unfold bucket_of_appt. rewrite lookup_fmap.
  by destruct (a !! "datetime") as [[|[|c s]]|].
Qed.

Lemma bucket_count_written (b : bucket) (appts : list dict) :
  bucket_count b (map (fmap written) appts) ≤ bucket_count b appts.
Proof.
  unfold bucket_count. induction appts as [|a appts IH]; [done|].
  cbn [map]. rewrite !filter_cons.
  pose proof (bucket_of_appt_written a b).
  destruct (decide (bucket_of_appt (written <$> a) = Some b)),
    (decide (bucket_of_appt a = Some b)); cbn [length]; try lia; tauto.
Qed.

(** A restart on the ledger that a successful save of a storable
    collection has written starts, and no hour holds more records after it
    than before: a collection within the capacity is loaded within the
    capacity. *)
Theorem restart_keeps_capacity (e : env) (appts : list dict)
    (fs fs' : filesystem) :
  Forall storable appts →
  save_excel e appts fs = (fs', Ok ()) →
  ∃ w, startup fs' = Ok w
    ∧ (∀ b, bucket_count b (appointments w) ≤ bucket_count b appts)
    ∧ (capacity_ok appts → capacity_ok (appointments w)).
Proof.
  intros Hs Hsave. exists (mk_world (map (fmap written) appts) fs').
  split; [|split].
  - unfold startup. by rewrite (save_load_storable _ _ _ _ Hs Hsave).
  - intros b. apply bucket_count_written.
  - intros Hc b. etrans; [apply bucket_count_written | apply Hc].
Qed.

(** What [load_excel] gives from a ledger written by a save of a storable
    collection is saved and loaded again unchanged: after the first round
    trip, saving and loading is the identity. *)
Theorem reload_is_fixed_point (e1 e2 : env) (appts l : list dict)
    (fs fs1 : filesystem) :
  Forall storable appts →
  save_excel e1 appts fs = (fs1, Ok ()) →
  load_excel fs1 = Ok l →
  io_fault e2 = None →
  fs1 !! temp_path e2 = None →
  ∃ fs2, save_excel e2 l fs1 = (fs2, Ok ()) ∧ load_excel fs2 = Ok l.
Proof.
  intros Hs Hsave Hload Hf Htmp.
  rewrite (save_load_storable _ _ _ _ Hs Hsave) in Hload. injection Hload as <-.
  assert (Hs' : Forall storable (map (fmap written) appts)).
  { apply Forall_forall. intros a Ha.
    apply list_elem_of_In, in_map_iff in Ha as (a0 & <- & Ha0).
    apply written_storable. rewrite Forall_forall in Hs.
    by apply Hs, list_elem_of_In. }
  destruct (save_excel_success e2 _ fs1 _ (sheet_rows_storable _ Hs') Hf Htmp)
    as (fs2 & Hsave2 & _).
  exists fs2. split; [done|].
  rewrite (save_load_storable _ _ _ _ Hs' Hsave2). f_equal.
  clear -Hs. induction Hs as [|a appts Ha _ IH]; [done|].
  cbn [map]. rewrite IH. f_equal.
  apply written_fmap_id. by apply written_storable.
Qed.

End more_properties.

(** ** A sample run *)

#[local] Existing Instance py.

Lemma text_body_body (name dt : string) : text_body (body name dt).
Proof.
  intros k Hk. unfold body.
  repeat (apply elem_of_cons in Hk as [->|Hk]; [by simplify_map_eq|]).
  by apply elem_of_nil in Hk.
Qed.

(** The scenario of the specification: four appointments between 09:00
    and 10:00 are taken, a fifth at 09:05 is refused, one at 10:05 is
    taken. *)
Example scenario_hour_full :
  length (appointments full_hour) = 4
  ∧ bucket_count (2024, 1, 1, 9)%N (appointments full_hour) = 4
  ∧ handle (sample_env 5 None) (POST (body "Eve" "2024-01-01T09:05")) full_hour
    = (full_hour, Ok (RError 409 "Hour full (max 4)."))
  ∧ snd (handle (sample_env 6 None) (POST (body "Fay" "2024-01-01T10:05")) full_hour)
    = Ok (RCreated (new_appt (sample_env 6 None) "Fay" "" "" "2024-01-01T10:05")).
Proof. repeat split; vm_compute; reflexivity. Qed.

(** An empty name: validation error, nothing changes. *)
Example scenario_empty_name :
  handle (sample_env 5 None) (POST (body "   " "2024-01-01T09:05")) full_hour
  = (full_hour, Ok (RError 400 "Name and datetime are required.")).
Proof. vm_compute. reflexivity. Qed.

(** C1, counterexample.  Started on a ledger that holds five appointments
    between 09:00 and 10:00, the collection holds the five. *)
Lemma C1_counterexample :
  ∃ w, startup crowded_ledger = Ok w
    ∧ bucket_count (2024, 1, 1, 9)%N (appointments (run [] w)) = 5
    ∧ ¬ capacity_ok (appointments (run [] w)).
Proof.
  eexists. split; [reflexivity|]. split; [vm_compute; reflexivity|].
  intros Hc. specialize (Hc (2024, 1, 1, 9)%N).
  vm_compute in Hc. lia.
Qed.

Lemma C1_witness :
  startup ∅ = Ok empty_world
  ∧ capacity_ok (appointments (run four_posts empty_world)).
Proof.
  split; [reflexivity|].
  apply (C1_capacity_invariant ∅ empty_world four_posts); [reflexivity|].
  intros b. vm_compute. lia.
Defined.

(** C2, counterexample.  The hour of 09:00 is full, the name is not empty
    and the datetime parses, and the address is [null]: the POST raises
    [AttributeError] and is not answered 409. *)
Lemma C2_counterexample :
  let data := <["address" := VNone]> (body "Eve" "2024-01-01T09:05") in
  strip (field_text data "name") = "Eve"
  ∧ fromisoformat (strip (field_text data "datetime"))
    = Some (mk_datetime 2024 1 1 9 5 0 0 None)
  ∧ bucket_count (2024, 1, 1, 9)%N (appointments full_hour) = MAX_PER_HOUR
  ∧ handle (sample_env 5 None) (POST data) full_hour
    = (full_hour, Raise AttributeError).
Proof. repeat split; vm_compute; reflexivity. Qed.

Lemma C2_witness :
  handle (sample_env 5 None) (POST (body "Eve" "2024-01-01T09:05")) full_hour
  = (full_hour, Ok (RError 409 "Hour full (max 4).")).
Proof.
  apply (C2_hour_full (sample_env 5 None) (body "Eve" "2024-01-01T09:05")
           full_hour (mk_datetime 2024 1 1 9 5 0 0 None)).
  - apply text_body_body.
  - vm_compute. discriminate.
  - vm_compute. discriminate.
  - vm_compute. reflexivity.
  - vm_compute. lia.
Defined.



(** C4, on a host whose temporary directory is not the ledger's.  The
    temporary file of a save is created in [/tmp]; the directory of the
    ledger receives no file.  When the final [os.replace] fails, as it
    does across file systems, the save raises, the new sheet is left in
    [/tmp] and the ledger holds what it held. *)
Theorem C4_temp_file_outside_ledger_directory :
  let e := sample_env 7 (Some FailReplace) in
  let fs' := fst (save_excel e (appointments full_hour) old_ledger) in
  fst excel_path = "/srv/scheduler"
  ∧ temp_path e = ("/tmp", "appts-k3x97.xlsx")
  ∧ snd (save_excel e (appointments full_hour) old_ledger) = Raise OSError
  ∧ (∃ rows, fs' !! ("/tmp", "appts-k3x97.xlsx") = Some (Workbook rows)
             ∧ length rows = 5)
  ∧ fs' !! excel_path = old_ledger !! excel_path
  ∧ ∀ name, name ≠ EXCEL_FILE → fs' !! ("/srv/scheduler", name) = None.
Proof.
  cbn zeta. split; [reflexivity|]. split; [vm_compute; reflexivity|].
  split; [vm_compute; reflexivity|].
  split.
  { eexists. split; [vm_compute; reflexivity|]. vm_compute. reflexivity. }
  split; [vm_compute; reflexivity|].
  intros name Hname.
  pose proof (save_excel_spec (sample_env 7 (Some FailReplace))
                (appointments full_hour) old_ledger _ _
                (surjective_pairing _)) as [Hother _].
  rewrite Hother.
  - unfold old_ledger. apply lookup_singleton_ne. intros [=]. done.
  - unfold excel_path. intros [=]. done.
  - unfold temp_path. intros [=].
Qed.

(** C5, counterexample.  A record created without an address is saved
    with the empty string in its address and loaded with [None] there, so
    the loaded collection does not hold it; a record whose id is the empty
    string is saved and not loaded at all. *)
Lemma C5_counterexample :
  let ann := new_appt (sample_env 1 None) "Ann" "" "" "2024-01-01T09:15" in
  let bob := <["id" := VStr ""]>
               (new_appt (sample_env 2 None) "Bob" "12 Elm St" "cough"
                  "2024-01-01T09:30") in
  let saved l := fst (save_excel (sample_env 3 None) l ∅) in
  (snd (save_excel (sample_env 3 None) [ann] ∅) = Ok ()
   ∧ load_excel (saved [ann]) = Ok [written <$> ann]
   ∧ ann !! "address" = Some (VStr "")
   ∧ (written <$> ann) !! "address" = Some VNone
   ∧ ¬ same_set [written <$> ann] [ann])
  ∧ (snd (save_excel (sample_env 3 None) [bob] ∅) = Ok ()
     ∧ load_excel (saved [bob]) = Ok []
     ∧ ¬ same_set [] [bob]).
Proof.
  cbn zeta. split.
  - split; [vm_compute; reflexivity|]. split; [vm_compute; reflexivity|].
    split; [vm_compute; reflexivity|]. split; [vm_compute; reflexivity|].
    intros Hs.
    pose proof (proj2 (Hs _) (list_elem_of_here _ _)) as Ha.
    apply list_elem_of_singleton in Ha.
    apply (f_equal (λ a : dict, a !! "address")) in Ha.
    vm_compute in Ha. discriminate Ha.
  - split; [vm_compute; reflexivity|]. split; [vm_compute; reflexivity|].
    intros Hs. eapply elem_of_nil, Hs, list_elem_of_here.
Qed.

Lemma C5_witness :
  let ann := new_appt (sample_env 1 None) "Ann" "" "" "2024-01-01T09:15" in
  ∃ fs', save_excel (sample_env 3 None) [ann] ∅ = (fs', Ok ())
    ∧ load_excel fs' = Ok [written <$> ann].
Proof.
  cbn zeta.
  destruct (C5_save_then_load (sample_env 3 None)
              [new_appt (sample_env 1 None) "Ann" "" "" "2024-01-01T09:15"] ∅)
    as (fs' & Hsave & Hload & _).
  - apply Forall_singleton, new_appt_storable.
    + vm_compute. discriminate.
    + repeat apply Forall_cons_2; try apply Forall_nil_2;
        (split; [apply Nat.leb_le; vm_compute; reflexivity
                | vm_compute; reflexivity]).
  - reflexivity.
  - reflexivity.
  - exists fs'. split; [exact Hsave | exact Hload].
Defined.

(** C6, counterexample.  Started on a ledger in which two rows carry the
    id [a1], one DELETE of [a1] is answered 200 and removes both: of three
    records one is left. *)
Lemma C6_counterexample :
  ∃ w, startup duplicate_id_ledger = Ok w
    ∧ length (appointments w) = 3
    ∧ length (with_id (VStr "a1") (appointments w)) = 2
    ∧ snd (handle (sample_env 1 None) (DELETE (id_body "a1")) w) = Ok RDone
    ∧ length (appointments
                (fst (handle (sample_env 1 None) (DELETE (id_body "a1")) w)))
      = 1.
Proof.
  eexists. split; [reflexivity|]. repeat split; vm_compute; reflexivity.
Qed.

Lemma C6_witness :
  let data := id_body "6f1c2a9e-7b1d-4c55-9a3e-000000000002" in
  startup ∅ = Ok empty_world
  ∧ length (appointments (fst (handle (sample_env 5 None) (DELETE data) full_hour)))
    = 3
  ∧ handle (sample_env 5 None) (DELETE (id_body "no such id")) full_hour
    = (full_hour, Ok (RError 404 "Appointment not found")).
Proof.
  cbn zeta.
  assert (Hs : startup ∅ = Ok empty_world) by reflexivity.
  split; [exact Hs|]. split.
  - destruct (C6_delete ∅ empty_world four_posts (sample_env 5 None)
                (id_body "6f1c2a9e-7b1d-4c55-9a3e-000000000002") Hs)
      as [Hpresent _].
    destruct Hpresent as (_ & Hlen & _ & Hkept & _);
      [vm_compute; discriminate|].
    unfold full_hour. rewrite Hkept. apply eq_add_S. rewrite Hlen.
    + vm_compute. reflexivity.
    + vm_compute. reflexivity.
  - destruct (C6_delete ∅ empty_world four_posts (sample_env 5 None)
                (id_body "no such id") Hs)
      as [_ Habsent].
    apply Habsent. vm_compute. reflexivity.
Defined.

Lemma C9_witness :
  let e := sample_env 5 (Some FailSave) in
  let a := new_appt e "Fay" "" "" "2024-01-01T10:05" in
  let fs' := fst (save_excel e (appointments full_hour ++ [a]) (disk full_hour)) in
  handle e (POST (body "Fay" "2024-01-01T10:05")) full_hour
  = (mk_world (appointments full_hour ++ [a]) fs', Raise OSError)
  ∧ fs' !! excel_path = disk full_hour !! excel_path.
Proof.
  cbn zeta.
  destruct (C9_no_rollback (sample_env 5 (Some FailSave))
              (body "Fay" "2024-01-01T10:05") full_hour
              (fst (save_excel (sample_env 5 (Some FailSave))
                      (appointments full_hour
                       ++ [new_appt (sample_env 5 (Some FailSave)) "Fay" "" ""
                             "2024-01-01T10:05"]) (disk full_hour)))
              OSError)
    as [Hpost _].
  apply (Hpost (mk_datetime 2024 1 1 10 5 0 0 None)).
  - apply text_body_body.
  - vm_compute. discriminate.
  - vm_compute. discriminate.
  - vm_compute. reflexivity.
  - vm_compute. lia.
  - apply pair_eta_snd. vm_compute. reflexivity.
Defined.

Lemma C10_witness :
  let e := sample_env 1 None in
  let data := <["reason" := VStr "  cough "]> (body " Ann Lee  " "2024-01-01T09:15 ") in
  ∃ a, snd (handle e (POST data) empty_world) = Ok (RCreated a)
    ∧ a !! "name" = Some (VStr "Ann Lee")
    ∧ a !! "address" = Some (VStr "")
    ∧ a !! "reason" = Some (VStr "cough")
    ∧ a !! "datetime" = Some (VStr "2024-01-01T09:15")
    ∧ a !! "id" = Some (VStr (uuid4 e))
    ∧ a !! "created_at" = Some (VStr (utcnow e)).
Proof.
  cbn zeta.
  set (e := sample_env 1 None).
  set (data := <["reason" := VStr "  cough "]>
                 (body " Ann Lee  " "2024-01-01T09:15 ")).
  set (a := new_appt e "Ann Lee" "" "cough" "2024-01-01T09:15").
  assert (Hpost : handle e (POST data) empty_world
                  = (fst (handle e (POST data) empty_world), Ok (RCreated a))).
  { apply pair_eta_snd. vm_compute. reflexivity. }
  destruct (C10_created_record e data empty_world _ a Hpost)
    as (_ & _ & Hid & Hcreated & _).
  exists a. rewrite Hpost. cbn [snd].
  split; [reflexivity|]. split; [vm_compute; reflexivity|].
  split; [vm_compute; reflexivity|]. split; [vm_compute; reflexivity|].
  split; [vm_compute; reflexivity|]. split; [exact Hid | exact Hcreated].
Defined.


(** ** The further properties on the sample run *)

Ltac by_compute :=
  match goal with
  | |- ?P =>
      let Hb := fresh "Hb" in
      assert (Hb : bool_decide P = true) by (vm_compute; reflexivity);
      exact (proj1 (bool_decide_eq_true P) Hb)
  end.

Ltac cells_ok :=
  repeat apply Forall_cons_2; try apply Forall_nil_2;
  (split; [apply Nat.leb_le; vm_compute; reflexivity | vm_compute; reflexivity]).

Lemma save_two_phase_witness :
  let e := sample_env 5 None in
  fst (save_excel e (appointments full_hour) old_ledger)
    !! ("/srv/scheduler", "notes.txt")
  = old_ledger !! ("/srv/scheduler", "notes.txt").
Proof.
  cbn zeta.
  destruct (save_two_phase (sample_env 5 None) (appointments full_hour)
              old_ledger _ _ (surjective_pairing _)) as [Hother _].
  apply Hother.
  - unfold excel_path. intros [=].
  - unfold temp_path. intros [=].
Defined.

Lemma failed_save_leaves_temp_file_witness :
  let e := sample_env 5 (Some FailSave) in
  snd (save_excel e [] ∅) = Raise OSError
  ∧ fst (save_excel e [] ∅) !! temp_path e = Some Blank.
Proof.
  cbn zeta.
  apply (failed_save_leaves_temp_file (sample_env 5 (Some FailSave)) [] ∅
           [VStr <$> HEADERS]).
  - vm_compute. reflexivity.
  - reflexivity.
  - left. reflexivity.
Defined.

Lemma successful_mutation_syncs_ledger_witness :
  ledger_in_sync
    (fst (handle (sample_env 5 None) (POST (body "Fay" "2024-01-01T10:05"))
            full_hour)).
Proof.
  apply (successful_mutation_syncs_ledger (sample_env 5 None)
           (POST (body "Fay" "2024-01-01T10:05")) full_hour _
           (RCreated (new_appt (sample_env 5 None) "Fay" "" "" "2024-01-01T10:05"))).
  - apply pair_eta_snd. vm_compute. reflexivity.
  - reflexivity.
Defined.

Lemma download_returns_ledger_witness :
  appointments (fst (handle (sample_env 5 None) DOWNLOAD full_hour))
  = appointments full_hour.
Proof.
  set (resp := match snd (handle (sample_env 5 None) DOWNLOAD full_hour) with
               | Ok r => r
               | Raise _ => RDone
               end).
  assert (Hr : snd (handle (sample_env 5 None) DOWNLOAD full_hour) = Ok resp).
  { vm_compute. reflexivity. }
  exact (proj1 (download_returns_ledger (sample_env 5 None) full_hour _ resp
                  (pair_eta_snd _ _ Hr))).
Defined.

(** Started in another directory than that of [app.py], where an earlier
    ledger lies: the download saves the sheet of the (empty) collection in
    the working directory and sends the earlier ledger. *)
Example download_from_another_directory :
  let w := mk_world [] old_ledger in
  let r := handle (H:=py_elsewhere) (sample_env 1 None) DOWNLOAD w in
  snd r = Ok (RFile EXCEL_FILE
                (Workbook [ VStr <$> HEADERS;
                            ledger_row "a1" "Ann" "2024-01-01T09:00" ]))
  ∧ disk (fst r) !! ("/home/nurse", EXCEL_FILE)
    = Some (Workbook [VStr <$> HEADERS]).
Proof. split; vm_compute; reflexivity. Qed.

Lemma error_response_leaves_world_witness :
  fst (handle (sample_env 5 None) (POST (body "Eve" "2024-01-01T09:05")) full_hour)
  = full_hour.
Proof.
  apply (error_response_leaves_world _ _ _ 409 "Hour full (max 4).").
  vm_compute. reflexivity.
Defined.

Lemma handle_keeps_ids_unique_witness :
  NoDup (ids (appointments
                (fst (handle (sample_env 5 None)
                        (POST (body "Fay" "2024-01-01T10:05")) full_hour)))).
Proof.
  apply handle_keeps_ids_unique.
  - by_compute.
  - by_compute.
Defined.

Lemma post_null_field_raises_witness :
  handle (sample_env 1 None)
    (POST (<["address" := VNone]> (body "Ann" "2024-01-01T09:15"))) empty_world
  = (empty_world, Raise AttributeError).
Proof.
  apply (post_null_field_raises _ _ _ "address").
  - apply list_elem_of_further, list_elem_of_here.
  - vm_compute. reflexivity.
Defined.

Lemma whitespace_name_is_missing_witness :
  handle (sample_env 5 None) (POST (body "   " "never")) full_hour
  = (full_hour, Ok (RError 400 "Name and datetime are required.")).
Proof.
  apply whitespace_name_is_missing.
  - apply text_body_body.
  - unfold all_space. by_compute.
Defined.

Lemma hour_full_iff_witness :
  ∃ msg, snd (handle (sample_env 5 None) (POST (body "Eve" "2024-01-01T09:05"))
                full_hour)
         = Ok (RError 409 msg).
Proof.
  apply (proj2 (hour_full_iff (sample_env 5 None) (body "Eve" "2024-01-01T09:05")
                  full_hour (text_body_body _ _))).
  split; [vm_compute; discriminate|]. split; [vm_compute; discriminate|].
  exists (mk_datetime 2024 1 1 9 5 0 0 None).
  split; [vm_compute; reflexivity | vm_compute; lia].
Defined.

Lemma post_accepted_witness :
  let e := sample_env 1 None in
  let a := new_appt e "Ann" "" "" "2024-01-01T09:15" in
  ∃ fs', handle e (POST (body " Ann " "2024-01-01T09:15")) empty_world
         = (mk_world [a] fs', Ok (RCreated a))
    ∧ ledger_in_sync (mk_world [a] fs').
Proof.
  cbn zeta.
  apply (post_accepted (sample_env 1 None) (body " Ann " "2024-01-01T09:15")
           empty_world (mk_datetime 2024 1 1 9 15 0 0 None)).
  - apply text_body_body.
  - vm_compute. discriminate.
  - vm_compute. discriminate.
  - vm_compute. reflexivity.
  - vm_compute. lia.
  - constructor.
  - vm_compute. discriminate.
  - cells_ok.
  - reflexivity.
  - reflexivity.
Defined.

Lemma post_then_count_witness :
  let e := sample_env 5 None in
  let w' := fst (handle e (POST (body "Fay" "2024-01-01T10:05")) full_hour) in
  count_in_hour (VStr "2024-01-01T10:30") (appointments w') = Ok 1
  ∧ count_in_hour (VStr "2024-01-01T09:00") (appointments w') = Ok 4.
Proof.
  cbn zeta.
  destruct (post_then_count (sample_env 5 None) (body "Fay" "2024-01-01T10:05")
              full_hour _
              (new_appt (sample_env 5 None) "Fay" "" "" "2024-01-01T10:05")
              (pair_eta_snd _ _ ltac:(vm_compute; reflexivity)))
    as (d & Hd & Hcount).
  vm_compute in Hd. injection Hd as <-.
  rewrite (Hcount "2024-01-01T10:30" (mk_datetime 2024 1 1 10 30 0 0 None))
    by (vm_compute; reflexivity).
  rewrite (Hcount "2024-01-01T09:00" (mk_datetime 2024 1 1 9 0 0 0 None))
    by (vm_compute; reflexivity).
  split; vm_compute; reflexivity.
Defined.

Lemma post_illegal_character_witness :
  let e := sample_env 1 None in
  ∃ a, a !! "name" = Some (VStr bell_name)
    ∧ handle e (POST (body bell_name "2024-01-01T09:15")) empty_world
      = (mk_world [a] ∅, Raise IllegalCharacterError).
Proof.
  cbn zeta.
  apply (post_illegal_character (sample_env 1 None)
           (body bell_name "2024-01-01T09:15") empty_world
           (mk_datetime 2024 1 1 9 15 0 0 None)).
  - apply text_body_body.
  - vm_compute. discriminate.
  - vm_compute. discriminate.
  - vm_compute. reflexivity.
  - vm_compute. lia.
  - constructor.
  - vm_compute. reflexivity.
Defined.

Lemma unwritable_collection_blocks_posts_witness :
  ∃ a, handle (sample_env 2 None) (POST (body "Bob" "2024-01-01T09:30")) bell_world
       = (mk_world (appointments bell_world ++ [a]) (disk bell_world),
          Raise IllegalCharacterError).
Proof.
  apply (unwritable_collection_blocks_posts (sample_env 2 None)
           (body "Bob" "2024-01-01T09:30") bell_world
           (mk_datetime 2024 1 1 9 30 0 0 None)).
  - vm_compute. reflexivity.
  - apply text_body_body.
  - vm_compute. discriminate.
  - vm_compute. discriminate.
  - vm_compute. reflexivity.
  - vm_compute. lia.
Defined.

Lemma delete_on_reachable_witness :
  startup ∅ = Ok empty_world
  ∧ handle (sample_env 5 None) (DELETE ∅) full_hour
    = (full_hour, Ok (RError 404 "Appointment not found")).
Proof.
  assert (Hs : startup ∅ = Ok empty_world) by reflexivity.
  split; [exact Hs|].
  destruct (delete_on_reachable ∅ empty_world four_posts (sample_env 5 None) ∅
              Hs) as [_ Hh].
  rewrite decide_True in Hh by (vm_compute; reflexivity).
  exact Hh.
Defined.

Lemma get_raises_on_blank_datetime_witness :
  startup blank_datetime_ledger = Ok blank_datetime_world
  ∧ handle (sample_env 1 None) GET blank_datetime_world
    = (blank_datetime_world, Raise TypeError).
Proof.
  split; [vm_compute; reflexivity|].
  apply get_raises_on_blank_datetime.
  - by_compute.
  - vm_compute. lia.
  - by_compute.
Defined.

Lemma get_sorted_when_text_witness :
  let w0 := mk_world [new_appt (sample_env 0 None) "Zoe" "" "" "2024-01-01T09:40"] ∅ in
  let w := run four_posts w0 in
  ∃ s, handle (sample_env 5 None) GET w = (w, Ok (RList s))
    ∧ stable_sorted_by (λ a, field_text a "datetime") (appointments w) s.
Proof.
  cbn zeta.
  apply (get_sorted_when_text
           (mk_world [new_appt (sample_env 0 None) "Zoe" "" "" "2024-01-01T09:40"] ∅)
           four_posts (sample_env 5 None)).
  apply Forall_singleton. exists "2024-01-01T09:40". vm_compute. reflexivity.
Defined.

Lemma restart_keeps_capacity_witness :
  let ann := new_appt (sample_env 1 None) "Ann" "" "" "2024-01-01T09:15" in
  let fs' := fst (save_excel (sample_env 3 None) [ann] ∅) in
  ∃ w, startup fs' = Ok w
    ∧ (∀ b, bucket_count b (appointments w) ≤ bucket_count b [ann])
    ∧ (capacity_ok [ann] → capacity_ok (appointments w)).
Proof.
  cbn zeta.
  apply (restart_keeps_capacity (sample_env 3 None)
           [new_appt (sample_env 1 None) "Ann" "" "" "2024-01-01T09:15"] ∅).
  - apply Forall_singleton, new_appt_storable.
    + vm_compute. discriminate.
    + cells_ok.
  - apply pair_eta_snd. vm_compute. reflexivity.
Defined.

Lemma reload_is_fixed_point_witness :
  let ann := new_appt (sample_env 1 None) "Ann" "" "" "2024-01-01T09:15" in
  let fs1 := fst (save_excel (sample_env 3 None) [ann] ∅) in
  ∃ fs2, save_excel (sample_env 4 None) [written <$> ann] fs1 = (fs2, Ok ())
    ∧ load_excel fs2 = Ok [written <$> ann].
Proof.
  cbn zeta.
  apply (reload_is_fixed_point (sample_env 3 None) (sample_env 4 None)
           [new_appt (sample_env 1 None) "Ann" "" "" "2024-01-01T09:15"]
           [written <$> new_appt (sample_env 1 None) "Ann" "" "" "2024-01-01T09:15"]
           ∅).
  - apply Forall_singleton, new_appt_storable.
    + vm_compute. discriminate.
    + cells_ok.
  - apply pair_eta_snd. vm_compute. reflexivity.
  - vm_compute. reflexivity.
  - reflexivity.
  - vm_compute. reflexivity.
Defined.

(** [escapeHtml] on sample values. *)
Example escapeHtml_examples :
  escapeHtml (VStr "<b>Ann & Bob</b>") = "&lt;b&gt;Ann &amp; Bob&lt;/b&gt;"
  ∧ escapeHtml (VStr "&lt;") = "&amp;lt;"
  ∧ escapeHtml VNone = ""
  ∧ escapeHtml (VStr "") = "".
Proof. repeat split; vm_compute; reflexivity. Qed.

(** ** The parsers on sample strings *)

Example fromisoformat_minute :
  Iso.fromisoformat "2024-01-01T09:15"
  = Some (mk_datetime 2024 1 1 9 15 0 0 None).
Proof. reflexivity. Qed.

Example fromisoformat_date_only :
  Iso.fromisoformat "2024-01-01" = Some (mk_datetime 2024 1 1 0 0 0 0 None).
Proof. reflexivity. Qed.

Example fromisoformat_offset :
  Iso.fromisoformat "2024-02-29 23:59:58.5+01:00" = None
  ∧ Iso.fromisoformat "2024-02-29 23:59:58.500+01:00"
    = Some (mk_datetime 2024 2 29 23 59 58 500000 (Some 3600000000%Z)).
Proof. split; reflexivity. Qed.

Example fromisoformat_rejects :
  Iso.fromisoformat "2024-1-1T9:5" = None
  ∧ Iso.fromisoformat "2023-02-29T09:15" = None
  ∧ Iso.fromisoformat "tomorrow" = None.
Proof. repeat split; reflexivity. Qed.

Example strptime_examples :
  Strptime.strptime "2024-01-01T09:15" = Some (mk_datetime 2024 1 1 9 15 0 0 None)
  ∧ Strptime.strptime "2024-1-1T9:5" = Some (mk_datetime 2024 1 1 9 5 0 0 None)
  ∧ Strptime.strptime "2024-01-01" = None
  ∧ Strptime.strptime "2024-01-01T09:15:30" = None.
Proof. repeat split; reflexivity. Qed.
